(** * The configuration package of the registration service

    A shallow embedding of [pkg/configuration/configuration.go]: the
    constants, the [ViperConfig] registry, its construction ([LoadConfig],
    [initConfig], [New]), [PrintConfig] and the accessors of the
    [Configuration] interface, followed by the properties of the
    configuration contract.

    Go strings are byte sequences and are modelled by [string]; a Go map is
    a [gmap]; the process environment, the file system and the log are the
    fields of an explicit [World] that the effectful functions thread
    through a small state monad. *)

From stdpp Require Import base option gmap strings list fin_maps pretty.
From Stdlib Require Import ZArith Ascii String.

Open Scope Z_scope.
Open Scope string_scope.

(** ** Go's [strings] package, as far as the package uses it *)
Module Strings.

Definition isLower (c : ascii) : bool :=
  let n := nat_of_ascii c in (Nat.leb 97 n && Nat.leb n 122)%bool.

Definition isUpper (c : ascii) : bool :=
  let n := nat_of_ascii c in (Nat.leb 65 n && Nat.leb n 90)%bool.

Definition upperByte (c : ascii) : ascii :=
  if isLower c then ascii_of_nat (nat_of_ascii c - 32) else c.

Definition lowerByte (c : ascii) : ascii :=
  if isUpper c then ascii_of_nat (nat_of_ascii c + 32) else c.

Fixpoint mapBytes (f : ascii -> ascii) (s : string) : string :=
  match s with
  | EmptyString => EmptyString
  | String c s' => String (f c) (mapBytes f s')
  end.

(** [strings.ToUpper] and [strings.ToLower] on the ASCII letters; every
    key and prefix of the package is ASCII. *)
Definition ToUpper : string -> string := mapBytes upperByte.
Definition ToLower : string -> string := mapBytes lowerByte.

(** [strings.NewReplacer(old, new)] for one pair of single-byte strings
    (Go's byte replacer). *)
Record Replacer := NewReplacer { oldByte : ascii; newByte : ascii }.

Definition Replace (r : Replacer) : string -> string :=
  mapBytes (fun c => if Ascii.eqb c (oldByte r) then newByte r else c).

(** [strings.FieldsFunc]: the maximal runs of characters that do not
    satisfy [f]; empty runs are dropped. The predicate is read on bytes,
    which is exact for a predicate on an ASCII character such as the
    comma. [field] is the run being collected. *)
Fixpoint fieldsFrom (f : ascii -> bool) (s field : string) : list string :=
  match s with
  | EmptyString => if decide (field = "") then [] else [field]
  | String c s' =>
      if f c
      then (if decide (field = "") then [] else [field]) ++ fieldsFrom f s' ""
      else fieldsFrom f s' (field ++ String c "")
  end.

Definition FieldsFunc (s : string) (f : ascii -> bool) : list string :=
  fieldsFrom f s "".

Fixpoint containsByte (c : ascii) (s : string) : bool :=
  match s with
  | EmptyString => false
  | String d s' => (Ascii.eqb c d || containsByte c s')%bool
  end.

End Strings.

(** ** Go errors, with [Wrap] of [github.com/pkg/errors] *)
Inductive error :=
| errorString (msg : string)
| withMessage (cause : error) (msg : string).

Fixpoint Error (e : error) : string :=
  match e with
  | errorString msg => msg
  | withMessage cause msg => msg ++ ": " ++ Error cause
  end.

Fixpoint Cause (e : error) : error :=
  match e with
  | errorString _ => e
  | withMessage cause _ => Cause cause
  end.

(** [errs.Wrap(err, message)] for a non-nil [err]. *)
Definition Wrap (err : error) (message : string) : error :=
  withMessage err message.

(** ** Values of the registry *)

(** The dynamic values ([interface{}]) the registry holds here: the
    defaults are strings, booleans, integers ([int]) and durations
    (nanoseconds); the environment supplies strings; a YAML file supplies
    strings, booleans and integers within the range of [int], maps
    ([VMap], the content of a map being held apart, under the paths of
    its entries), and whatever else YAML can hold (a float, an integer
    beyond the range of [int], a sequence, a timestamp), kept as [VOther]
    by its text. Go's [nil] is [None]. *)
Inductive value :=
| VString (s : string)
| VBool (b : bool)
| VInt (n : Z)
| VDuration (d : Z)
| VMap
| VOther (text : string).

(** The integers a Go value can hold ([int] and [time.Duration] are 64
    bits wide). *)
Definition goValue (x : value) : Prop :=
  match x with
  | VInt n | VDuration n => -2 ^ 63 <= n < 2 ^ 63
  | _ => True
  end.

#[global] Instance value_eq_dec : EqDecision value.
Proof. solve_decision. Defined.

(** The conversions that are taken as given: of Go's standard library,
    [strconv.ParseInt(s, 0, 0)], the string-to-duration conversion of
    [cast.ToDuration] (built on [time.ParseDuration]) and
    [time.Duration.String]; and what [cast] makes of the other values of a
    YAML document (of a float, say, its decimal text as a string and its
    integer part as an [int]). *)
Class Strconv := {
  ParseInt : string -> option Z;
  ParseDuration : string -> option Z;
  DurationString : Z -> string;
  OtherToString : string -> string;
  OtherToBool : string -> bool;
  OtherToInt : string -> Z;
  OtherToDuration : string -> Z
}.

(** ** [github.com/spf13/cast]: the conversions behind the typed getters.
    A failed conversion yields the zero value of the target type. *)
Module Cast.

(** [strconv.ParseBool] *)
Definition ParseBool (s : string) : option bool :=
  if bool_decide (s ∈ ["1"; "t"; "T"; "TRUE"; "true"; "True"]) then Some true
  else if bool_decide (s ∈ ["0"; "f"; "F"; "FALSE"; "false"; "False"]) then Some false
  else None.

Definition FormatBool (b : bool) : string := if b then "true" else "false".

(** [strconv.Itoa] *)
Definition Itoa (n : Z) : string := pretty n.

Section WithStrconv.
Context `{Strconv}.

Definition ToString (i : option value) : string :=
  match i with
  | None => ""
  | Some (VString s) => s
  | Some (VBool b) => FormatBool b
  | Some (VInt n) => Itoa n
  | Some (VDuration d) => DurationString d
  | Some VMap => ""
  | Some (VOther t) => OtherToString t
  end.

Definition ToBool (i : option value) : bool :=
  match i with
  | None => false
  | Some (VBool b) => b
  | Some (VInt n) => negb (n =? 0)%Z
  | Some (VString s) => default false (ParseBool s)
  | Some (VDuration _) => false
  | Some VMap => false
  | Some (VOther t) => OtherToBool t
  end.

Definition ToInt (i : option value) : Z :=
  match i with
  | None => 0
  | Some (VInt n) => n
  | Some (VString s) => default 0 (ParseInt s)
  | Some (VBool b) => if b then 1 else 0
  | Some (VDuration _) => 0
  | Some VMap => 0
  | Some (VOther t) => OtherToInt t
  end.

Definition ToDuration (i : option value) : Z :=
  match i with
  | None => 0
  | Some (VDuration d) => d
  | Some (VInt n) => n
  | Some (VString s) => default 0 (ParseDuration s)
  | Some (VBool _) => 0
  | Some VMap => 0
  | Some (VOther t) => OtherToDuration t
  end.

(** The conversion [Get] applies when the type of a value follows the
    type of its default ([SetTypeByDefaultValue]); a value of another type
    is returned as it is. *)
Definition castAs (valType val : value) : value :=
  match valType with
  | VBool _ => VBool (ToBool (Some val))
  | VString _ => VString (ToString (Some val))
  | VInt _ => VInt (ToInt (Some val))
  | VDuration _ => VDuration (ToDuration (Some val))
  | VMap | VOther _ => val
  end.
End WithStrconv.

End Cast.

(** [ConfigParseError] of viper: a parse error with its own message. *)
Definition ConfigParseError (err : error) : error :=
  errorString ("While parsing config: " ++ Error err).

(** ** The world outside the program *)

(** The process environment: [os.LookupEnv] is the map lookup. *)
Abbreviation Env := (gmap string string).

(** A file, by what reading and parsing it as YAML gives: a read error, a
    parse error, or its content. The content lists every entry of the
    document under its dotted path in lower case: [http: {address: a}] is
    [VMap] at [http] and [a] at [http.address]; an entry with no value (a
    YAML null) holds [None]. A key that is written with a dot in the
    document ([http.address: a] at the top) is the one entry
    [http.address]; the documents considered do not spell a path both
    ways. *)
Inductive File :=
| Unreadable (err : error)
| Malformed (err : error)
| Yaml (cfg : gmap string (option value)).

(** What the program does to the world, in order. A call of a loader is
    recorded with the environment it was made in. *)
Inductive Event :=
| EvSetenv (key val : string)
| EvLoadFromSecret (resourceKey : string) (e : Env)
| EvLoadFromConfigMap (prefix resourceKey : string) (e : Env)
| EvReadFile (path : string)
| EvLog (logger msg : string) (keysAndValues : list (string * option value)).

Record World := {
  env : Env;
  fs : gmap string File;
  trace : list Event
}.

(** The state monad over the world. *)
Definition M (A : Type) : Type := World -> A * World.

#[global] Instance M_ret : MRet M := fun A x w => (x, w).
#[global] Instance M_bind : MBind M :=
  fun A B f m w => let '(x, w') := m w in f x w'.

Definition emit (ev : Event) : M unit :=
  fun w => (tt, {| env := env w; fs := fs w; trace := trace w ++ [ev] |}).

Definition getenv : M Env := fun w => (env w, w).

(** [os.Setenv]: refused ([EINVAL]) for an empty key, a key with [=] or a
    NUL byte, or a value with a NUL byte; otherwise the variable is set,
    whatever it held. *)
Definition Setenv (key val : string) : M (option error) :=
  fun w =>
    if (bool_decide (key = "")
        || Strings.containsByte "="%char key
        || Strings.containsByte zero key
        || Strings.containsByte zero val)%bool
    then (Some (errorString ("setenv: invalid argument")), w)
    else (None, {| env := <[key := val]> (env w); fs := fs w;
                   trace := trace w ++ [EvSetenv key val] |}).

(** Reading a file: a path with no file gives the error of [open]. *)
Definition ReadFile (path : string) : M (option File) :=
  fun w => (fs w !! path,
            {| env := env w; fs := fs w; trace := trace w ++ [EvReadFile path] |}).

Definition quote : string := String (ascii_of_nat 34) EmptyString.
Definition newline : string := String (ascii_of_nat 10) EmptyString.
Definition tab : string := String (ascii_of_nat 9) EmptyString.

(** ** [github.com/spf13/viper]: the registry behind the accessors

    The embedding keeps the layers this package fills: the defaults
    ([SetDefault]), the content of the configuration file ([ReadInConfig])
    and the process environment ([AutomaticEnv]). Viper nests its maps
    along the dots of a key; here each layer is held flattened, one entry
    per dotted path, and the paths above a key are computed from the key.
    The file layer lists its maps ([VMap]); in the defaults, which only
    [SetDefault] fills, a map sits exactly at the paths above a key. A
    lookup follows viper's order among these layers: environment first,
    then the file, then the default; a value that is not a map at a path
    above the key shadows the layers below it. *)
Module Viper.

(** The paths above a key, from the top: for [a.b.c], [a] and [a.b]. *)
Fixpoint parentsFrom (s acc : string) : list string :=
  match s with
  | EmptyString => []
  | String c s' =>
      if Ascii.eqb c "."%char
      then acc :: parentsFrom s' (acc ++ ".")
      else parentsFrom s' (acc ++ String c "")
  end.

Definition parents (key : string) : list string := parentsFrom key "".

Record Viper := {
  envPrefix : string;
  automaticEnvApplied : bool;
  envKeyReplacer : option Strings.Replacer;
  typeByDefValue : bool;
  defaults : gmap string value;
  config : gmap string (option value);
  configType : string;
  configFile : string
}.

(** [viper.New()] *)
Definition New : Viper :=
  {| envPrefix := ""; automaticEnvApplied := false; envKeyReplacer := None;
     typeByDefValue := false; defaults := ∅; config := ∅;
     configType := ""; configFile := "" |}.

Definition SetEnvPrefix (v : Viper) (p : string) : Viper :=
  {| envPrefix := p; automaticEnvApplied := automaticEnvApplied v;
     envKeyReplacer := envKeyReplacer v; typeByDefValue := typeByDefValue v;
     defaults := defaults v; config := config v;
     configType := configType v; configFile := configFile v |}.

Definition AutomaticEnv (v : Viper) : Viper :=
  {| envPrefix := envPrefix v; automaticEnvApplied := true;
     envKeyReplacer := envKeyReplacer v; typeByDefValue := typeByDefValue v;
     defaults := defaults v; config := config v;
     configType := configType v; configFile := configFile v |}.

Definition SetEnvKeyReplacer (v : Viper) (r : Strings.Replacer) : Viper :=
  {| envPrefix := envPrefix v; automaticEnvApplied := automaticEnvApplied v;
     envKeyReplacer := Some r; typeByDefValue := typeByDefValue v;
     defaults := defaults v; config := config v;
     configType := configType v; configFile := configFile v |}.

Definition SetTypeByDefaultValue (v : Viper) (enable : bool) : Viper :=
  {| envPrefix := envPrefix v; automaticEnvApplied := automaticEnvApplied v;
     envKeyReplacer := envKeyReplacer v; typeByDefValue := enable;
     defaults := defaults v; config := config v;
     configType := configType v; configFile := configFile v |}.

(** [SetDefault]: the maps along the path of the key are created, a value
    in their place being replaced, and the value is put at the key, in
    place of what was at it or below it. *)
Definition SetDefault (v : Viper) (key : string) (x : value) : Viper :=
  let key := Strings.ToLower key in
  {| envPrefix := envPrefix v; automaticEnvApplied := automaticEnvApplied v;
     envKeyReplacer := envKeyReplacer v; typeByDefValue := typeByDefValue v;
     defaults :=
       <[key := x]>
         (filter (fun kv => (kv.1 ∉ parents key) /\ (key ∉ parents kv.1)) (defaults v));
     config := config v;
     configType := configType v; configFile := configFile v |}.

Definition SetConfigType (v : Viper) (t : string) : Viper :=
  {| envPrefix := envPrefix v; automaticEnvApplied := automaticEnvApplied v;
     envKeyReplacer := envKeyReplacer v; typeByDefValue := typeByDefValue v;
     defaults := defaults v; config := config v;
     configType := t; configFile := configFile v |}.

Definition SetConfigFile (v : Viper) (path : string) : Viper :=
  {| envPrefix := envPrefix v; automaticEnvApplied := automaticEnvApplied v;
     envKeyReplacer := envKeyReplacer v; typeByDefValue := typeByDefValue v;
     defaults := defaults v; config := config v;
     configType := configType v; configFile := path |}.

(** What [ReadInConfig] stores once the file is read and parsed. *)
Definition setConfig (v : Viper) (cfg : gmap string (option value)) : Viper :=
  {| envPrefix := envPrefix v; automaticEnvApplied := automaticEnvApplied v;
     envKeyReplacer := envKeyReplacer v; typeByDefValue := typeByDefValue v;
     defaults := defaults v; config := cfg;
     configType := configType v; configFile := configFile v |}.

(** The name of the environment variable bound to a key: the prefix and
    the key joined by an underscore, upper-cased. *)
Definition mergeWithEnvPrefix (v : Viper) (key : string) : string :=
  if decide (envPrefix v = "") then Strings.ToUpper key
  else Strings.ToUpper (envPrefix v ++ "_" ++ key).

(** [getEnv]: the replacer is applied to the name, and a variable that is
    set to the empty string counts as unset. *)
Definition getEnv (v : Viper) (e : Env) (key : string) : option string :=
  let key' := match envKeyReplacer v with
              | Some r => Strings.Replace r key
              | None => key
              end in
  match e !! key' with
  | Some val => if decide (val = "") then None else Some val
  | None => None
  end.

(** [isPathShadowedInAutoEnv]: the variable of a path above the key is
    set. *)
Definition isPathShadowedInAutoEnv (v : Viper) (e : Env) (key : string) : bool :=
  existsb (fun p => bool_decide (is_Some (getEnv v e (mergeWithEnvPrefix v p))))
    (parents key).

(** [isPathShadowedInDeepMap]: the paths above the key are walked from
    the top; the walk ends unshadowed at a path with nothing or [nil],
    goes on through a map, and ends shadowed at any other value. *)
Fixpoint shadowedIn (nodeAt : string -> option value) (ps : list string) : bool :=
  match ps with
  | [] => false
  | p :: ps' =>
      match nodeAt p with
      | None => false
      | Some VMap => shadowedIn nodeAt ps'
      | Some _ => true
      end
  end.

Definition isPathShadowedInConfig (v : Viper) (key : string) : bool :=
  shadowedIn (fun p => mjoin (config v !! p)) (parents key).

(** [searchMap] on the defaults: the default of the key, or the map of
    the defaults below it. *)
Definition searchDefaults (v : Viper) (key : string) : option value :=
  match defaults v !! key with
  | Some d => Some d
  | None =>
      if existsb (fun k => bool_decide (key ∈ parents k)) (elements (dom (defaults v)))
      then Some VMap else None
  end.

(** The keys of a layer that hold no map. *)
Definition isMap (x : option value) : bool :=
  match x with Some VMap => true | _ => false end.

Definition leafKeys (m : gmap string (option value)) : gset string :=
  dom (filter (fun kv => isMap kv.2 = false) m).

(** [find]: the first layer that holds the (lower-cased) key. In each
    layer, when the key has no value there and a path above it has one,
    the lookup ends with [nil]. *)
Definition find (v : Viper) (e : Env) (lcaseKey : string) : option value :=
  match (if automaticEnvApplied v
         then getEnv v e (mergeWithEnvPrefix v lcaseKey) else None) with
  | Some val => Some (VString val)
  | None =>
      if (automaticEnvApplied v && isPathShadowedInAutoEnv v e lcaseKey)%bool
      then None
      else
        match mjoin (config v !! lcaseKey) with
        | Some val => Some val
        | None =>
            if isPathShadowedInConfig v lcaseKey then None
            else searchDefaults v lcaseKey
        end
  end.

(** [AllKeys]: the keys of the file that hold no map, and the keys of the
    defaults that have none of these above them. Go ranges over its maps
    here, in no specified order; the order of [elements] stands for it. *)
Definition AllKeys (v : Viper) : list string :=
  elements (leafKeys (config v)
            ∪ filter (fun key => Forall (fun p => p ∉ leafKeys (config v)) (parents key))
                (dom (defaults v))).

Definition SupportedExts : list string :=
  ["json"; "toml"; "yaml"; "yml"; "properties"; "props"; "prop"; "hcl";
   "dotenv"; "env"; "ini"].

(** [ReadInConfig]: the configuration file must be named and of a
    supported type; it is read and parsed, and on success its content
    replaces the file layer. Any failure leaves the registry as it was. *)
Definition ReadInConfig (v : Viper) : M (Viper * option error) :=
  if decide (configFile v = "")
  then mret (v, Some (errorString ("Config File " ++ quote ++ "config" ++ quote
                                    ++ " Not Found in " ++ quote ++ "[]" ++ quote)))
  else if negb (bool_decide (configType v ∈ SupportedExts))
  then mret (v, Some (errorString ("Unsupported Config Type " ++ quote
                                    ++ configType v ++ quote)))
  else
    file ← ReadFile (configFile v);
    match file with
    | None => mret (v, Some (errorString ("open " ++ configFile v
                                           ++ ": no such file or directory")))
    | Some (Unreadable err) => mret (v, Some err)
    | Some (Malformed err) => mret (v, Some (ConfigParseError err))
    | Some (Yaml cfg) => mret (setConfig v cfg, None)
    end.

Section Getters.
Context `{Strconv}.

Definition Get (v : Viper) (e : Env) (key : string) : option value :=
  let lcaseKey := Strings.ToLower key in
  match find v e lcaseKey with
  | None => None
  | Some val =>
      if typeByDefValue v
      then Some (Cast.castAs (default val (defaults v !! lcaseKey)) val)
      else Some val
  end.

Definition GetString (v : Viper) (e : Env) (key : string) : string :=
  Cast.ToString (Get v e key).
Definition GetBool (v : Viper) (e : Env) (key : string) : bool :=
  Cast.ToBool (Get v e key).
Definition GetInt (v : Viper) (e : Env) (key : string) : Z :=
  Cast.ToInt (Get v e key).
Definition GetDuration (v : Viper) (e : Env) (key : string) : Z :=
  Cast.ToDuration (Get v e key).
End Getters.

End Viper.

(** ** The loaders of [toolchain-common]

    [LoadFromSecret(resourceKey, cl)] returns the secret's key/value data
    or an error; [LoadFromConfigMap(prefix, resourceKey, cl)] exports the
    entries of a config map as environment variables or returns an error.
    Both are taken as given: any function of the client and of the process
    environment, free to change the environment. *)
Class Loaders (Client : Type) := {
  LoadFromSecret : string -> Client -> Env -> (gmap string string * option error) * Env;
  LoadFromConfigMap : string -> string -> Client -> Env -> option error * Env
}.

(** ** Constants *)

Definition Second : Z := 1000000000.

Definition EnvPrefix := "REGISTRATION".

Definition varHTTPAddress := "http.address".
Definition DefaultHTTPAddress := "0.0.0.0:8080".

Definition varHTTPIdleTimeout := "http.idle_timeout".
Definition DefaultHTTPIdleTimeout : Z := Second * 15.

Definition varHTTPCompressResponses := "http.compress".
Definition DefaultHTTPCompressResponses := true.

Definition varEnvironment := "environment".
Definition DefaultEnvironment := "prod".
Definition UnitTestsEnvironment := "unit-tests".

Definition varLogLevel := "log.level".
Definition DefaultLogLevel := "info".

Definition varLogJSON := "log.json".
Definition DefaultLogJSON := false.

Definition varGracefulTimeout := "graceful_timeout".
Definition DefaultGracefulTimeout : Z := Second * 15.

Definition varHTTPWriteTimeout := "http.write_timeout".
Definition DefaultHTTPWriteTimeout : Z := Second * 15.

Definition varHTTPReadTimeout := "http.read_timeout".
Definition DefaultHTTPReadTimeout : Z := Second * 15.

Definition varAuthClientLibraryURL := "auth_client.library_url".
Definition DefaultAuthClientLibraryURL := "http://129.40.58.177:8082/auth/js/keycloak.js".

Definition varAuthClientConfigRaw := "auth_client.config.raw".
Definition DefaultAuthClientConfigRaw : string :=
  let field (name val : string) :=
    tab ++ "  " ++ quote ++ name ++ quote ++ ": " ++ val in
  let str (s : string) := quote ++ s ++ quote in
  "{" ++ newline
  ++ field "realm" (str "local") ++ "," ++ newline
  ++ field "auth-server-url" (str "http://129.40.58.177:8082/auth") ++ "," ++ newline
  ++ field "ssl-required" (str "none") ++ "," ++ newline
  ++ field "resource" (str "crt") ++ "," ++ newline
  ++ field "clientId" (str "crt") ++ "," ++ newline
  ++ field "public-client" "true" ++ newline
  ++ tab ++ "}".

Definition varAuthClientConfigContentType := "auth_client.config.content_type".
Definition DefaultAuthClientConfigContentType := "application/json; charset=utf-8".

Definition varAuthClientPublicKeysURL := "auth_client.public_keys_url".
Definition DefaultAuthClientPublicKeysURL :=
  "http://129.40.58.177:8082/auth/realms/local/protocol/openid-connect/certs".

Definition varNamespace := "namespace".
Definition DefaultNamespace := "toolchain-host-operator".

Definition varVerificationEnabled := "verification.enabled".
Definition DefaultVerificationEnabled := false.

Definition varVerificationDailyLimit := "verification.daily_limit".
Definition DefaultVerificationDailyLimit : Z := 5.

Definition varVerificationAttemptsAllowed := "verification.attempts_allowed".
Definition DefaultVerificationAttemptsAllowed : Z := 3.

Definition varTwilioAccountSID := "twilio.account.sid".
Definition varTwilioAuthToken := "twilio.auth.token".
Definition varTwilioFromNumber := "twilio.from_number".

Definition varVerificationMessageTemplate := "verification.message_template".
Definition DefaultVerificationMessageTemplate :=
  "Developer Sandbox for Red Hat OpenShift: Your verification code is %s".

Definition varVerificationExcludedEmailDomains := "verification.excluded_email_domains".

Definition varVerificationCodeExpiresInMin := "verification.code_expires_in_min".
Definition DefaultVerificationCodeExpiresInMin : Z := 5.

Definition varWoopraDomain := "woopra.domain".
Definition varSegmentWriteKey := "segment.write_key".

(** ** The registry of the package *)

Record ViperConfig := {
  v : Viper.Viper;
  secretValues : gmap string string;
  excludedDomains : list string
}.

(** The separator of the excluded-domains list: [c == ','] *)
Definition isComma (c : ascii) : bool := Ascii.eqb c ","%char.

(** Indexing a Go map of strings: a missing key gives the empty string. *)
Definition index (m : gmap string string) (k : string) : string :=
  default "" (m !! k).

Definition setConfigDefaults (c : ViperConfig) : ViperConfig :=
  let r := Viper.SetTypeByDefaultValue (v c) true in
  let r := Viper.SetDefault r varHTTPAddress (VString DefaultHTTPAddress) in
  let r := Viper.SetDefault r varHTTPCompressResponses (VBool DefaultHTTPCompressResponses) in
  let r := Viper.SetDefault r varHTTPWriteTimeout (VDuration DefaultHTTPWriteTimeout) in
  let r := Viper.SetDefault r varHTTPReadTimeout (VDuration DefaultHTTPReadTimeout) in
  let r := Viper.SetDefault r varHTTPIdleTimeout (VDuration DefaultHTTPIdleTimeout) in
  let r := Viper.SetDefault r varEnvironment (VString DefaultEnvironment) in
  let r := Viper.SetDefault r varLogLevel (VString DefaultLogLevel) in
  let r := Viper.SetDefault r varLogJSON (VBool DefaultLogJSON) in
  let r := Viper.SetDefault r varGracefulTimeout (VDuration DefaultGracefulTimeout) in
  let r := Viper.SetDefault r varAuthClientLibraryURL (VString DefaultAuthClientLibraryURL) in
  let r := Viper.SetDefault r varAuthClientConfigContentType
             (VString DefaultAuthClientConfigContentType) in
  let r := Viper.SetDefault r varAuthClientPublicKeysURL
             (VString DefaultAuthClientPublicKeysURL) in
  let r := Viper.SetDefault r varNamespace (VString DefaultNamespace) in
  let r := Viper.SetDefault r varAuthClientConfigRaw (VString DefaultAuthClientConfigRaw) in
  let r := Viper.SetDefault r varVerificationEnabled (VBool DefaultVerificationEnabled) in
  let r := Viper.SetDefault r varVerificationDailyLimit (VInt DefaultVerificationDailyLimit) in
  let r := Viper.SetDefault r varVerificationAttemptsAllowed
             (VInt DefaultVerificationAttemptsAllowed) in
  let r := Viper.SetDefault r varVerificationMessageTemplate
             (VString DefaultVerificationMessageTemplate) in
  let r := Viper.SetDefault r varVerificationCodeExpiresInMin
             (VInt DefaultVerificationCodeExpiresInMin) in
  {| v := r; secretValues := secretValues c; excludedDomains := excludedDomains c |}.

Section Construction.
Context `{Strconv} {Client : Type} `{Loaders Client}.

(** The two loaders as steps of the program. *)
Definition loadFromSecret (resourceKey : string) (cl : Client)
  : M (gmap string string * option error) :=
  fun w =>
    let '(r, e') := LoadFromSecret resourceKey cl (env w) in
    (r, {| env := e'; fs := fs w;
           trace := trace w ++ [EvLoadFromSecret resourceKey (env w)] |}).

Definition loadFromConfigMap (prefix resourceKey : string) (cl : Client)
  : M (option error) :=
  fun w =>
    let '(r, e') := LoadFromConfigMap prefix resourceKey cl (env w) in
    (r, {| env := e'; fs := fs w;
           trace := trace w ++ [EvLoadFromConfigMap prefix resourceKey (env w)] |}).

(** [initConfig] creates an initial configuration from the secret. *)
Definition initConfig (secret : gmap string string) : M ViperConfig :=
  e ← getenv;
  let r := Viper.New in
  let r := Viper.SetEnvPrefix r EnvPrefix in
  let r := Viper.AutomaticEnv r in
  let r := Viper.SetEnvKeyReplacer r (Strings.NewReplacer "."%char "_"%char) in
  let r := Viper.SetTypeByDefaultValue r true in
  let c := setConfigDefaults
             {| v := r; secretValues := secret; excludedDomains := [] |} in
  mret {| v := v c; secretValues := secretValues c;
          excludedDomains :=
            Strings.FieldsFunc
              (Viper.GetString (v c) e varVerificationExcludedEmailDomains) isComma |}.

(** [LoadConfig] loads the initial configuration. A Go result of a
    pointer and an error is a pair of options. *)
Definition LoadConfig (cl : Client) : M (option ViperConfig * option error) :=
  _ ← Setenv "HOST_OPERATOR_SECRET_NAME" "host-operator-secret";
  '(secret, err) ← loadFromSecret "HOST_OPERATOR_SECRET_NAME" cl;
  match err with
  | Some err => mret (None, Some err)
  | None =>
      _ ← Setenv "HOST_OPERATOR_CONFIG_MAP_NAME" "host-operator-config";
      err ← loadFromConfigMap EnvPrefix "HOST_OPERATOR_CONFIG_MAP_NAME" cl;
      match err with
      | Some err => mret (None, Some err)
      | None => c ← initConfig secret; mret (Some c, None)
      end
  end.

(** [New] creates a configuration reader object using a configurable
    configuration file path. *)
Definition New (configFilePath : string) (cl : Client)
  : M (option ViperConfig * option error) :=
  '(c, err) ← LoadConfig cl;
  match c, err with
  | _, Some err => mret (None, Some err)
  | None, None => mret (None, None)
  | Some c, None =>
      if decide (configFilePath = "") then mret (Some c, None)
      else
        let r := Viper.SetConfigType (v c) "yaml" in
        let r := Viper.SetConfigFile r configFilePath in
        '(r, err) ← Viper.ReadInConfig r;
        match err with
        | Some err => mret (None, Some (Wrap err "failed to read config file"))
        | None =>
            e ← getenv;
            if decide (Viper.GetString r e varVerificationExcludedEmailDomains = "")
            then mret (Some {| v := r; secretValues := secretValues c;
                               excludedDomains := excludedDomains c |}, None)
            else mret (Some {| v := r; secretValues := secretValues c;
                               excludedDomains :=
                                 Strings.FieldsFunc
                                   (Viper.GetString r e varVerificationExcludedEmailDomains)
                                   isComma |}, None)
        end
  end.

(** [PrintConfig] logs every key of the registry with its value. *)
Definition PrintConfig (c : ViperConfig) : M unit :=
  e ← getenv;
  let keysAndValues := (fun key => (key, Viper.Get (v c) e key)) <$> Viper.AllKeys (v c) in
  emit (EvLog "configuration" "Registration service configuration variables:" keysAndValues).

(** *** The accessors. A read through the registry sees the environment
    of the moment of the call. *)
Definition GetHTTPAddress (c : ViperConfig) (e : Env) : string :=
  Viper.GetString (v c) e varHTTPAddress.
Definition GetHTTPCompressResponses (c : ViperConfig) (e : Env) : bool :=
  Viper.GetBool (v c) e varHTTPCompressResponses.
Definition GetHTTPWriteTimeout (c : ViperConfig) (e : Env) : Z :=
  Viper.GetDuration (v c) e varHTTPWriteTimeout.
Definition GetHTTPReadTimeout (c : ViperConfig) (e : Env) : Z :=
  Viper.GetDuration (v c) e varHTTPReadTimeout.
Definition GetHTTPIdleTimeout (c : ViperConfig) (e : Env) : Z :=
  Viper.GetDuration (v c) e varHTTPIdleTimeout.
Definition GetEnvironment (c : ViperConfig) (e : Env) : string :=
  Viper.GetString (v c) e varEnvironment.
Definition GetLogLevel (c : ViperConfig) (e : Env) : string :=
  Viper.GetString (v c) e varLogLevel.
Definition IsLogJSON (c : ViperConfig) (e : Env) : bool :=
  Viper.GetBool (v c) e varLogJSON.
Definition GetGracefulTimeout (c : ViperConfig) (e : Env) : Z :=
  Viper.GetDuration (v c) e varGracefulTimeout.
Definition IsTestingMode (c : ViperConfig) (e : Env) : bool :=
  bool_decide (GetEnvironment c e = UnitTestsEnvironment).
Definition GetAuthClientLibraryURL (c : ViperConfig) (e : Env) : string :=
  Viper.GetString (v c) e varAuthClientLibraryURL.
Definition GetAuthClientConfigAuthContentType (c : ViperConfig) (e : Env) : string :=
  Viper.GetString (v c) e varAuthClientConfigContentType.
Definition GetAuthClientConfigAuthRaw (c : ViperConfig) (e : Env) : string :=
  Viper.GetString (v c) e varAuthClientConfigRaw.
Definition GetAuthClientPublicKeysURL (c : ViperConfig) (e : Env) : string :=
  Viper.GetString (v c) e varAuthClientPublicKeysURL.
Definition GetNamespace (c : ViperConfig) (e : Env) : string :=
  Viper.GetString (v c) e varNamespace.
Definition GetVerificationEnabled (c : ViperConfig) (e : Env) : bool :=
  Viper.GetBool (v c) e varVerificationEnabled.
Definition GetVerificationDailyLimit (c : ViperConfig) (e : Env) : Z :=
  Viper.GetInt (v c) e varVerificationDailyLimit.
Definition GetVerificationAttemptsAllowed (c : ViperConfig) (e : Env) : Z :=
  Viper.GetInt (v c) e varVerificationAttemptsAllowed.
Definition GetVerificationMessageTemplate (c : ViperConfig) (e : Env) : string :=
  Viper.GetString (v c) e varVerificationMessageTemplate.
Definition GetVerificationCodeExpiresInMin (c : ViperConfig) (e : Env) : Z :=
  Viper.GetInt (v c) e varVerificationCodeExpiresInMin.
Definition GetWoopraDomain (c : ViperConfig) (e : Env) : string :=
  Viper.GetString (v c) e varWoopraDomain.
Definition GetSegmentWriteKey (c : ViperConfig) (e : Env) : string :=
  Viper.GetString (v c) e varSegmentWriteKey.
End Construction.

(** The accessors that read the registry's own fields. *)
Definition GetTwilioAccountSID (c : ViperConfig) : string :=
  index (secretValues c) varTwilioAccountSID.
Definition GetTwilioAuthToken (c : ViperConfig) : string :=
  index (secretValues c) varTwilioAuthToken.
Definition GetTwilioFromNumber (c : ViperConfig) : string :=
  index (secretValues c) varTwilioFromNumber.
Definition GetVerificationExcludedEmailDomains (c : ViperConfig) : list string :=
  excludedDomains c.

(** [GetViperInstance] returns the underlying Viper instance. *)
Definition GetViperInstance (c : ViperConfig) : Viper.Viper := v c.

(** ** The vocabulary of the properties *)

(** The registry [initConfig] builds, before any file is read. *)
Definition initialRegistry : Viper.Viper :=
  v (setConfigDefaults
       {| v := Viper.SetTypeByDefaultValue
                 (Viper.SetEnvKeyReplacer
                    (Viper.AutomaticEnv (Viper.SetEnvPrefix Viper.New EnvPrefix))
                    (Strings.NewReplacer "."%char "_"%char)) true;
          secretValues := ∅; excludedDomains := [] |}).

(** The registry of a configuration built from the file [path] with content
    [cfg]; with no path there is no file layer. *)
Definition registryFor (path : string) (cfg : gmap string (option value)) : Viper.Viper :=
  if decide (path = "") then initialRegistry
  else Viper.setConfig
         (Viper.SetConfigFile (Viper.SetConfigType initialRegistry "yaml") path) cfg.

(** The environment variable bound to a key, e.g.
    [REGISTRATION_VERIFICATION_DAILY_LIMIT]. *)
Definition envName (key : string) : string :=
  Strings.Replace (Strings.NewReplacer "."%char "_"%char)
    (Strings.ToUpper (EnvPrefix ++ "_" ++ key)).

(** The three sources of a key: the bound environment variable when it is
    set to a non-empty string, the value the file holds at the key (a null
    is no value), the registered default. *)
Definition envValue (e : Env) (key : string) : option string :=
  match e !! envName key with
  | Some val => if decide (val = "") then None else Some val
  | None => None
  end.

Definition fileValue (w : World) (path key : string) : option value :=
  if decide (path = "") then None
  else match fs w !! path with
       | Some (Yaml cfg) => mjoin (cfg !! key)
       | _ => None
       end.

(** The keys of the file that hold no map, those with a null included. *)
Definition fileKeys (w : World) (path : string) : gset string :=
  if decide (path = "") then ∅
  else match fs w !! path with
       | Some (Yaml cfg) => Viper.leafKeys cfg
       | _ => ∅
       end.

(** What stands above a key: the variable of a path above it is set to a
    non-empty string; the file holds a value that is not a map at a path
    above it (under maps, from the top). *)
Definition parentVariableSet (e : Env) (key : string) : bool :=
  existsb (fun p => bool_decide (is_Some (envValue e p))) (Viper.parents key).

Definition fileValueAbove (w : World) (path key : string) : bool :=
  Viper.shadowedIn (fileValue w path) (Viper.parents key).

(** What the defaults hold at a key: for a recognized option, the value
    [setConfigDefaults] registers, if any. *)
Definition registeredDefault (key : string) : option value :=
  Viper.searchDefaults initialRegistry key.

(** The layered lookup of a key in a configuration built from the file at
    [path], highest precedence first: environment, file, default; in the
    environment and in the file, a value above the key ends the lookup. *)
Definition resolve (e : Env) (w : World) (path key : string) : option value :=
  match envValue e key with
  | Some val => Some (VString val)
  | None =>
      if parentVariableSet e key then None
      else
        match fileValue w path key with
        | Some val => Some val
        | None => if fileValueAbove w path key then None else registeredDefault key
        end
  end.

(** The order of precedence, case by case, for a property [P] of the value
    a lookup of [key] yields: the key's own variable; else nothing when the
    variable of a path above the key is set; else the file's value of the
    key; else nothing when the file has a value above the key; else the
    registered default. *)
Definition followsPrecedence (e : Env) (w : World) (path key : string)
    (P : option value -> Prop) : Prop :=
  (forall val, envValue e key = Some val -> P (Some (VString val)))
  /\ (envValue e key = None -> parentVariableSet e key = true -> P None)
  /\ (forall x, envValue e key = None -> parentVariableSet e key = false ->
        fileValue w path key = Some x -> goValue x -> P (Some x))
  /\ (envValue e key = None -> parentVariableSet e key = false ->
      fileValue w path key = None -> fileValueAbove w path key = true ->
      P None)
  /\ (envValue e key = None -> parentVariableSet e key = false ->
      fileValue w path key = None -> fileValueAbove w path key = false ->
      P (registeredDefault key)).

(** What the constructor reports when reading the file at [path] fails. *)
Definition fileError (w : World) (path : string) : option error :=
  match fs w !! path with
  | None => Some (errorString ("open " ++ path ++ ": no such file or directory"))
  | Some (Unreadable err) => Some err
  | Some (Malformed err) => Some (ConfigParseError err)
  | Some (Yaml _) => None
  end.

(** The typed accessors that read a key of the registry at the moment of
    the call, as an enumeration, with the key each one reads. *)
Inductive Accessor :=
| AGetHTTPAddress | AGetHTTPCompressResponses | AGetHTTPWriteTimeout
| AGetHTTPReadTimeout | AGetHTTPIdleTimeout | AGetEnvironment | AGetLogLevel
| AIsLogJSON | AGetGracefulTimeout | AGetAuthClientLibraryURL
| AGetAuthClientConfigAuthContentType | AGetAuthClientConfigAuthRaw
| AGetAuthClientPublicKeysURL | AGetNamespace | AGetVerificationEnabled
| AGetVerificationDailyLimit | AGetVerificationAttemptsAllowed
| AGetVerificationMessageTemplate | AGetVerificationCodeExpiresInMin
| AGetWoopraDomain | AGetSegmentWriteKey.

Inductive result :=
| RString (s : string)
| RBool (b : bool)
| RInt (n : Z)
| RDuration (d : Z).

Inductive kind := KString | KBool | KInt | KDuration.

Definition kindOf (x : value) : option kind :=
  match x with
  | VString _ => Some KString
  | VBool _ => Some KBool
  | VInt _ => Some KInt
  | VDuration _ => Some KDuration
  | VMap | VOther _ => None
  end.

Definition keyOf (a : Accessor) : string :=
  match a with
  | AGetHTTPAddress => varHTTPAddress
  | AGetHTTPCompressResponses => varHTTPCompressResponses
  | AGetHTTPWriteTimeout => varHTTPWriteTimeout
  | AGetHTTPReadTimeout => varHTTPReadTimeout
  | AGetHTTPIdleTimeout => varHTTPIdleTimeout
  | AGetEnvironment => varEnvironment
  | AGetLogLevel => varLogLevel
  | AIsLogJSON => varLogJSON
  | AGetGracefulTimeout => varGracefulTimeout
  | AGetAuthClientLibraryURL => varAuthClientLibraryURL
  | AGetAuthClientConfigAuthContentType => varAuthClientConfigContentType
  | AGetAuthClientConfigAuthRaw => varAuthClientConfigRaw
  | AGetAuthClientPublicKeysURL => varAuthClientPublicKeysURL
  | AGetNamespace => varNamespace
  | AGetVerificationEnabled => varVerificationEnabled
  | AGetVerificationDailyLimit => varVerificationDailyLimit
  | AGetVerificationAttemptsAllowed => varVerificationAttemptsAllowed
  | AGetVerificationMessageTemplate => varVerificationMessageTemplate
  | AGetVerificationCodeExpiresInMin => varVerificationCodeExpiresInMin
  | AGetWoopraDomain => varWoopraDomain
  | AGetSegmentWriteKey => varSegmentWriteKey
  end.

(** The type an accessor returns. *)
Definition kindOfAccessor (a : Accessor) : kind :=
  match a with
  | AGetHTTPCompressResponses | AIsLogJSON | AGetVerificationEnabled => KBool
  | AGetHTTPWriteTimeout | AGetHTTPReadTimeout | AGetHTTPIdleTimeout
  | AGetGracefulTimeout => KDuration
  | AGetVerificationDailyLimit | AGetVerificationAttemptsAllowed
  | AGetVerificationCodeExpiresInMin => KInt
  | _ => KString
  end.

(** The keys of the table of recognized options, in its order. *)
Definition recognizedOptions : list string :=
  [ varHTTPAddress; varHTTPIdleTimeout; varHTTPCompressResponses; varEnvironment;
    varLogLevel; varLogJSON; varGracefulTimeout; varHTTPWriteTimeout;
    varHTTPReadTimeout; varAuthClientLibraryURL; varAuthClientConfigRaw;
    varAuthClientConfigContentType; varAuthClientPublicKeysURL; varNamespace;
    varVerificationEnabled; varVerificationDailyLimit; varVerificationAttemptsAllowed;
    varVerificationMessageTemplate; varVerificationExcludedEmailDomains;
    varVerificationCodeExpiresInMin; varWoopraDomain; varSegmentWriteKey ].

(** The recognized options that get no [SetDefault]. *)
Definition optionsWithoutDefault : list string :=
  [ varVerificationExcludedEmailDomains; varWoopraDomain; varSegmentWriteKey ].

(** The default the table of recognized options documents for the key an
    accessor reads. *)
Definition documentedDefault (a : Accessor) : result :=
  match a with
  | AGetHTTPAddress => RString "0.0.0.0:8080"
  | AGetHTTPIdleTimeout => RDuration (15 * 1000000000)
  | AGetHTTPCompressResponses => RBool true
  | AGetEnvironment => RString "prod"
  | AGetLogLevel => RString "info"
  | AIsLogJSON => RBool false
  | AGetGracefulTimeout => RDuration (15 * 1000000000)
  | AGetHTTPWriteTimeout => RDuration (15 * 1000000000)
  | AGetHTTPReadTimeout => RDuration (15 * 1000000000)
  | AGetAuthClientLibraryURL => RString DefaultAuthClientLibraryURL
  | AGetAuthClientConfigAuthRaw => RString DefaultAuthClientConfigRaw
  | AGetAuthClientConfigAuthContentType => RString "application/json; charset=utf-8"
  | AGetAuthClientPublicKeysURL => RString DefaultAuthClientPublicKeysURL
  | AGetNamespace => RString "toolchain-host-operator"
  | AGetVerificationEnabled => RBool false
  | AGetVerificationDailyLimit => RInt 5
  | AGetVerificationAttemptsAllowed => RInt 3
  | AGetVerificationMessageTemplate => RString DefaultVerificationMessageTemplate
  | AGetVerificationCodeExpiresInMin => RInt 5
  | AGetWoopraDomain => RString ""
  | AGetSegmentWriteKey => RString ""
  end.

Section Calls.
Context `{Strconv}.

(** Calling an accessor. *)
Definition call (a : Accessor) (c : ViperConfig) (e : Env) : result :=
  match a with
  | AGetHTTPAddress => RString (GetHTTPAddress c e)
  | AGetHTTPCompressResponses => RBool (GetHTTPCompressResponses c e)
  | AGetHTTPWriteTimeout => RDuration (GetHTTPWriteTimeout c e)
  | AGetHTTPReadTimeout => RDuration (GetHTTPReadTimeout c e)
  | AGetHTTPIdleTimeout => RDuration (GetHTTPIdleTimeout c e)
  | AGetEnvironment => RString (GetEnvironment c e)
  | AGetLogLevel => RString (GetLogLevel c e)
  | AIsLogJSON => RBool (IsLogJSON c e)
  | AGetGracefulTimeout => RDuration (GetGracefulTimeout c e)
  | AGetAuthClientLibraryURL => RString (GetAuthClientLibraryURL c e)
  | AGetAuthClientConfigAuthContentType => RString (GetAuthClientConfigAuthContentType c e)
  | AGetAuthClientConfigAuthRaw => RString (GetAuthClientConfigAuthRaw c e)
  | AGetAuthClientPublicKeysURL => RString (GetAuthClientPublicKeysURL c e)
  | AGetNamespace => RString (GetNamespace c e)
  | AGetVerificationEnabled => RBool (GetVerificationEnabled c e)
  | AGetVerificationDailyLimit => RInt (GetVerificationDailyLimit c e)
  | AGetVerificationAttemptsAllowed => RInt (GetVerificationAttemptsAllowed c e)
  | AGetVerificationMessageTemplate => RString (GetVerificationMessageTemplate c e)
  | AGetVerificationCodeExpiresInMin => RInt (GetVerificationCodeExpiresInMin c e)
  | AGetWoopraDomain => RString (GetWoopraDomain c e)
  | AGetSegmentWriteKey => RString (GetSegmentWriteKey c e)
  end.

(** The conversion an accessor applies to the value it finds. *)
Definition convert (k : kind) (x : option value) : result :=
  match k with
  | KString => RString (Cast.ToString x)
  | KBool => RBool (Cast.ToBool x)
  | KInt => RInt (Cast.ToInt x)
  | KDuration => RDuration (Cast.ToDuration x)
  end.
End Calls.

(** Four sentences of the specification, as a reader takes them. *)

(** "A supplied file value overrides both defaults and environment for the
    same key": the accessor of a key the file supplies returns the file's
    value, whatever the environment holds. *)
Definition file_overrides_environment : Prop :=
  forall (sc : Strconv) (Client : Type) (ld : Loaders Client)
         (path : string) (cl : Client) (w w' : World) (c : ViperConfig)
         (a : Accessor) (x : value),
    New path cl w = (Some c, None, w') ->
    fileValue w path (keyOf a) = Some x ->
    call a c (env w') = convert (kindOfAccessor a) (Some x).

(** "Absent environment/file input for a key yields its documented
    default": with no variable and no file value for the key itself, its
    accessor returns the default. *)
Definition default_when_key_not_supplied : Prop :=
  forall (sc : Strconv) (Client : Type) (ld : Loaders Client)
         (path : string) (cl : Client) (w w' : World) (c : ViperConfig)
         (a : Accessor) (e : Env),
    New path cl w = (Some c, None, w') ->
    envValue e (keyOf a) = None ->
    fileValue w path (keyOf a) = None ->
    call a c e = documentedDefault a.

(** "Re-derives the excluded domains if the file supplies a non-empty value
    for that option": the list is then the comma-separated fields of the
    value the file supplies. *)
Definition file_value_rederives_the_list : Prop :=
  forall (sc : Strconv) (Client : Type) (ld : Loaders Client)
         (path : string) (cl : Client) (w w' : World) (c : ViperConfig) (x : value),
    New path cl w = (Some c, None, w') ->
    path <> "" ->
    fileValue w path varVerificationExcludedEmailDomains = Some x ->
    Cast.ToString (Some x) <> "" ->
    excludedDomains c = Strings.FieldsFunc (Cast.ToString (Some x)) isComma.

(** "One default per recognized option": after construction every
    recognized option has a registered default. *)
Definition every_option_has_a_default : Prop :=
  forall (sc : Strconv) (Client : Type) (ld : Loaders Client)
         (path : string) (cl : Client) (w w' : World) (c : ViperConfig),
    New path cl w = (Some c, None, w') ->
    forall key, key ∈ recognizedOptions -> is_Some (Viper.defaults (v c) !! key).


(** The steps of [LoadConfig], named: the environment each loader is called
    in and what it answers. *)
Section Steps.
Context {Client : Type} `{Loaders Client}.

Definition envForSecret (w : World) : Env :=
  <["HOST_OPERATOR_SECRET_NAME" := "host-operator-secret"]> (env w).

Definition secretOutcome (cl : Client) (w : World)
  : (gmap string string * option error) * Env :=
  LoadFromSecret "HOST_OPERATOR_SECRET_NAME" cl (envForSecret w).

Definition envForConfigMap (cl : Client) (w : World) : Env :=
  <["HOST_OPERATOR_CONFIG_MAP_NAME" := "host-operator-config"]> (secretOutcome cl w).2.

Definition configMapOutcome (cl : Client) (w : World) : option error * Env :=
  LoadFromConfigMap EnvPrefix "HOST_OPERATOR_CONFIG_MAP_NAME" cl (envForConfigMap cl w).

(** The environment once both loaders have run. *)
Definition loadedEnv (cl : Client) (w : World) : Env := (configMapOutcome cl w).2.

(** The secret mapping the loader answers. *)
Definition loadedSecret (cl : Client) (w : World) : gmap string string :=
  (secretOutcome cl w).1.1.

(** The events of [LoadConfig]: up to the call of the secret loader, and
    from there to the call of the config-map loader. *)
Definition secretEvents (w : World) : list Event :=
  [ EvSetenv "HOST_OPERATOR_SECRET_NAME" "host-operator-secret";
    EvLoadFromSecret "HOST_OPERATOR_SECRET_NAME" (envForSecret w) ].

Definition configMapEvents (cl : Client) (w : World) : list Event :=
  [ EvSetenv "HOST_OPERATOR_CONFIG_MAP_NAME" "host-operator-config";
    EvLoadFromConfigMap EnvPrefix "HOST_OPERATOR_CONFIG_MAP_NAME" (envForConfigMap cl w) ].

Definition loadEvents (cl : Client) (w : World) : list Event :=
  secretEvents w ++ configMapEvents cl w.
End Steps.

Section Initial.
Context `{Strconv}.

(** The configuration [initConfig] returns for a secret mapping, in the
    environment [e]. *)
Definition initialConfig (secret : gmap string string) (e : Env) : ViperConfig :=
  {| v := initialRegistry; secretValues := secret;
     excludedDomains :=
       Strings.FieldsFunc
         (Viper.GetString initialRegistry e varVerificationExcludedEmailDomains)
         isComma |}.

Definition finalConfig (path : string) (cfg : gmap string (option value))
    (secret : gmap string string) (e : Env) : ViperConfig :=
  let r := registryFor path cfg in
  {| v := r; secretValues := secret;
     excludedDomains :=
       if decide (Viper.GetString r e varVerificationExcludedEmailDomains = "")
       then excludedDomains (initialConfig secret e)
       else Strings.FieldsFunc
              (Viper.GetString r e varVerificationExcludedEmailDomains) isComma |}.
End Initial.

(** ** A concrete cluster and world for the examples *)
Module Sample.

(** A stand-in for the conversions of the standard library; no example
    below converts a number or a duration from or to a string. *)
Definition conversions : Strconv :=
  {| ParseInt := fun _ => None;
     ParseDuration := fun _ => None;
     DurationString := fun _ => "";
     OtherToString := fun _ => "";
     OtherToBool := fun _ => false;
     OtherToInt := fun _ => 0;
     OtherToDuration := fun _ => 0 |}.

(** A cluster, by what its secret and its config map answer; the entries
    of the config map are exported under the prefix. *)
Record Cluster := {
  secretData : gmap string string;
  secretError : option error;
  configMapData : list (string * string);
  configMapError : option error
}.

Definition loaders : Loaders Cluster :=
  {| LoadFromSecret := fun _ cl e => ((secretData cl, secretError cl), e);
     LoadFromConfigMap := fun prefix _ cl e =>
       (configMapError cl,
        foldr (fun kv acc => <[prefix ++ "_" ++ kv.1 := kv.2]> acc) e (configMapData cl)) |}.

Definition cluster : Cluster :=
  {| secretData := {[ "twilio.account.sid" := "AC0123";
                      "twilio.auth.token" := "token";
                      "twilio.from_number" := "+15550100" ]};
     secretError := None;
     configMapData := [];
     configMapError := None |}.

Definition secretDown : Cluster :=
  {| secretData := ∅; secretError := Some (errorString "secrets unavailable");
     configMapData := []; configMapError := None |}.

Definition configMapDown : Cluster :=
  {| secretData := ∅; secretError := None;
     configMapData := [];
     configMapError := Some (errorString "config map unavailable") |}.

(** No variable set, no file. *)
Definition bare : World := {| env := ∅; fs := ∅; trace := [] |}.

(** The address set both in the environment and in the file; the file
    also lists excluded domains. *)
Definition path : string := "/etc/registration.yaml".

Definition content : gmap string (option value) :=
  {[ "http" := Some VMap;
     "http.address" := Some (VString "10.0.0.1:7070");
     "verification" := Some VMap;
     "verification.excluded_email_domains" := Some (VString "redhat.com,ibm.com") ]}.

Definition both : World :=
  {| env := {[ "REGISTRATION_HTTP_ADDRESS" := "127.0.0.1:9090" ]};
     fs := {[ path := Yaml content;
              "/etc/broken.yaml" := Malformed (errorString "yaml: line 1") ]};
     trace := [] |}.

(** The two constructions the examples use: with no file in the bare
    world, and from the file of the world [both]. *)
Definition plain : ViperConfig :=
  @initialConfig conversions (secretData cluster) (@loadedEnv Cluster loaders cluster bare).

Definition afterPlain : World :=
  {| env := @loadedEnv Cluster loaders cluster bare; fs := fs bare;
     trace := trace bare ++ @loadEvents Cluster loaders cluster bare |}.

Definition fromFile : ViperConfig :=
  @finalConfig conversions path content (secretData cluster)
    (@loadedEnv Cluster loaders cluster both).

Definition afterFile : World :=
  {| env := @loadedEnv Cluster loaders cluster both; fs := fs both;
     trace := trace both ++ @loadEvents Cluster loaders cluster both ++ [EvReadFile path] |}.

(** The variable of the path above http.address is set; no file. *)
Definition shadowed : World :=
  {| env := {[ "REGISTRATION_HTTP" := "x" ]}; fs := ∅; trace := [] |}.

Definition underShadow : ViperConfig :=
  @initialConfig conversions (secretData cluster) (@loadedEnv Cluster loaders cluster shadowed).

Definition afterShadow : World :=
  {| env := @loadedEnv Cluster loaders cluster shadowed; fs := fs shadowed;
     trace := trace shadowed ++ @loadEvents Cluster loaders cluster shadowed |}.

(** The excluded domains in the file, and the variable of the path above
    the option set; the option's own variable is not. *)
Definition hidden : World :=
  {| env := {[ "REGISTRATION_VERIFICATION" := "x" ]};
     fs := {[ path := Yaml content ]};
     trace := [] |}.

Definition fromHidden : ViperConfig :=
  @finalConfig conversions path content (secretData cluster)
    (@loadedEnv Cluster loaders cluster hidden).

Definition afterHidden : World :=
  {| env := @loadedEnv Cluster loaders cluster hidden; fs := fs hidden;
     trace := trace hidden ++ @loadEvents Cluster loaders cluster hidden
              ++ [EvReadFile path] |}.

(** A file with a value at http, the path above http.address. *)
Definition scalarContent : gmap string (option value) :=
  {[ "http" := Some (VString "foo") ]}.

Definition scalarAbove : World :=
  {| env := ∅; fs := {[ path := Yaml scalarContent ]}; trace := [] |}.

Definition fromScalar : ViperConfig :=
  @finalConfig conversions path scalarContent (secretData cluster)
    (@loadedEnv Cluster loaders cluster scalarAbove).

Definition afterScalar : World :=
  {| env := @loadedEnv Cluster loaders cluster scalarAbove; fs := fs scalarAbove;
     trace := trace scalarAbove ++ @loadEvents Cluster loaders cluster scalarAbove
              ++ [EvReadFile path] |}.

End Sample.

(** ** Vocabulary of the further properties *)

(** The strings [strconv.ParseBool] reads as true. *)
Definition truthy : list string := ["1"; "t"; "T"; "TRUE"; "true"; "True"].

(** No byte of the string satisfies the predicate. *)
Fixpoint noByte (f : ascii -> bool) (s : string) : bool :=
  match s with
  | EmptyString => true
  | String c s' => (negb (f c) && noByte f s')%bool
  end.

(** A well-formed entry of the excluded-domains list: not empty and with no
    comma. *)
Definition isField (d : string) : Prop := d <> "" /\ noByte isComma d = true.

(** The recognized options that get a [SetDefault]. *)
Definition optionsWithDefault : list string :=
  filter (fun key => key ∉ optionsWithoutDefault) recognizedOptions.

(** * Properties *)

(** ** The construction, step by step *)

Lemma Setenv_secret_name w :
  Setenv "HOST_OPERATOR_SECRET_NAME" "host-operator-secret" w =
    (None, {| env := envForSecret w; fs := fs w;
              trace := trace w ++ [EvSetenv "HOST_OPERATOR_SECRET_NAME" "host-operator-secret"] |}).
Proof. reflexivity. Qed.

Lemma Setenv_config_map_name w :
  Setenv "HOST_OPERATOR_CONFIG_MAP_NAME" "host-operator-config" w =
    (None, {| env := <["HOST_OPERATOR_CONFIG_MAP_NAME" := "host-operator-config"]> (env w);
              fs := fs w;
              trace := trace w ++ [EvSetenv "HOST_OPERATOR_CONFIG_MAP_NAME" "host-operator-config"] |}).
Proof. reflexivity. Qed.

Section Construction_facts.
Context `{Strconv} {Client : Type} `{Loaders Client}.

Lemma initConfig_eq secret w :
  initConfig secret w = (initialConfig secret (env w), w).
Proof. reflexivity. Qed.

Lemma LoadConfig_eq cl w :
  LoadConfig cl w =
    match (secretOutcome cl w).1.2 with
    | Some err =>
        ((None, Some err),
         {| env := (secretOutcome cl w).2; fs := fs w;
            trace := trace w ++ secretEvents w |})
    | None =>
        match (configMapOutcome cl w).1 with
        | Some err =>
            ((None, Some err),
             {| env := loadedEnv cl w; fs := fs w;
                trace := trace w ++ loadEvents cl w |})
        | None =>
            ((Some (initialConfig (loadedSecret cl w) (loadedEnv cl w)), None),
             {| env := loadedEnv cl w; fs := fs w;
                trace := trace w ++ loadEvents cl w |})
        end
    end.
Proof.
  unfold loadEvents, secretEvents, configMapEvents, loadedEnv, loadedSecret,
    configMapOutcome, envForConfigMap, secretOutcome.
  unfold LoadConfig, mbind, M_bind, mret, M_ret, loadFromSecret, loadFromConfigMap.
  rewrite Setenv_secret_name. cbn [env fs trace].
  destruct (LoadFromSecret _ cl (envForSecret w)) as [[secret [err|]] e1]; cbn [fst snd].
  { by rewrite <- app_assoc. }
  rewrite Setenv_config_map_name. cbn [env fs trace].
  destruct (LoadFromConfigMap _ _ cl _) as [[err|] e2]; cbn [fst snd].
  { rewrite <- !app_assoc. reflexivity. }
  rewrite initConfig_eq. cbn [env]. by rewrite <- !app_assoc.
Qed.

Lemma ReadInConfig_eq path w :
  path <> "" ->
  Viper.ReadInConfig
    (Viper.SetConfigFile (Viper.SetConfigType initialRegistry "yaml") path) w =
    (match fs w !! path with
     | Some (Yaml cfg) => (registryFor path cfg, None)
     | Some (Unreadable err) =>
         (Viper.SetConfigFile (Viper.SetConfigType initialRegistry "yaml") path, Some err)
     | Some (Malformed err) =>
         (Viper.SetConfigFile (Viper.SetConfigType initialRegistry "yaml") path,
          Some (ConfigParseError err))
     | None =>
         (Viper.SetConfigFile (Viper.SetConfigType initialRegistry "yaml") path,
          Some (errorString ("open " ++ path ++ ": no such file or directory")))
     end,
     {| env := env w; fs := fs w; trace := trace w ++ [EvReadFile path] |}).
Proof.
  intros Hpath. unfold Viper.ReadInConfig, registryFor.
  cbn [Viper.configFile Viper.SetConfigFile Viper.configType Viper.SetConfigType].
  destruct (decide (path = "")) as [|_]; [done|].
  change (negb (bool_decide ("yaml" ∈ Viper.SupportedExts))) with false.
  cbn iota. unfold mbind, M_bind, ReadFile, mret, M_ret.
  destruct (fs w !! path) as [[err|err|cfg]|]; reflexivity.
Qed.

Lemma New_eq path cl w :
  New path cl w =
    match (secretOutcome cl w).1.2 with
    | Some err =>
        ((None, Some err),
         {| env := (secretOutcome cl w).2; fs := fs w;
            trace := trace w ++ secretEvents w |})
    | None =>
        match (configMapOutcome cl w).1 with
        | Some err =>
            ((None, Some err),
             {| env := loadedEnv cl w; fs := fs w;
                trace := trace w ++ loadEvents cl w |})
        | None =>
            if decide (path = "")
            then ((Some (initialConfig (loadedSecret cl w) (loadedEnv cl w)), None),
                  {| env := loadedEnv cl w; fs := fs w;
                     trace := trace w ++ loadEvents cl w |})
            else
              (match fs w !! path with
               | Some (Yaml cfg) =>
                   (Some (finalConfig path cfg (loadedSecret cl w) (loadedEnv cl w)), None)
               | Some (Unreadable err) =>
                   (None, Some (Wrap err "failed to read config file"))
               | Some (Malformed err) =>
                   (None, Some (Wrap (ConfigParseError err) "failed to read config file"))
               | None =>
                   (None, Some (Wrap (errorString
                                        ("open " ++ path ++ ": no such file or directory"))
                                  "failed to read config file"))
               end,
               {| env := loadedEnv cl w; fs := fs w;
                  trace := trace w ++ loadEvents cl w ++ [EvReadFile path] |})
        end
    end.
Proof.
  unfold New. unfold mbind at 1. unfold M_bind at 1. rewrite LoadConfig_eq.
  destruct ((secretOutcome cl w).1.2) as [err|]; [reflexivity|].
  destruct ((configMapOutcome cl w).1) as [err|]; [reflexivity|].
  destruct (decide (path = "")) as [|Hpath]; [reflexivity|].
  unfold mbind, M_bind. cbn [v initialConfig].
  rewrite (ReadInConfig_eq _ _ Hpath). cbn [env fs trace].
  rewrite <- app_assoc.
  destruct (fs w !! path) as [[err|err|cfg]|]; try reflexivity.
  unfold getenv, finalConfig. cbn [env secretValues excludedDomains initialConfig].
  destruct (decide _); reflexivity.
Qed.
End Construction_facts.

Lemma registryFor_settings path cfg :
  Viper.automaticEnvApplied (registryFor path cfg) = true
  /\ Viper.envPrefix (registryFor path cfg) = EnvPrefix
  /\ Viper.envKeyReplacer (registryFor path cfg)
     = Some (Strings.NewReplacer "."%char "_"%char)
  /\ Viper.typeByDefValue (registryFor path cfg) = true
  /\ Viper.defaults (registryFor path cfg) = Viper.defaults initialRegistry
  /\ Viper.config (registryFor path cfg) = (if decide (path = "") then ∅ else cfg).
Proof. unfold registryFor. destruct (decide (path = "")); repeat split; reflexivity. Qed.

Lemma getEnv_registryFor path cfg e key :
  Viper.getEnv (registryFor path cfg) e
    (Viper.mergeWithEnvPrefix (registryFor path cfg) key) = envValue e key.
Proof.
  destruct (registryFor_settings path cfg) as (_ & Hp & Hr & _).
  unfold Viper.getEnv, Viper.mergeWithEnvPrefix, envValue, envName.
  rewrite Hp, Hr.
  destruct (decide (EnvPrefix = "")) as [Hne|_]; [discriminate Hne|reflexivity].
Qed.

Lemma fileValue_content w path cfg key :
  (path <> "" -> fs w !! path = Some (Yaml cfg)) ->
  mjoin ((if decide (path = "") then ∅ else cfg) !! key) = fileValue w path key.
Proof.
  intros Hfs. unfold fileValue. destruct (decide (path = "")) as [|Hpath].
  - by rewrite lookup_empty.
  - by rewrite (Hfs Hpath).
Qed.

Lemma existsb_pointwise {A} (f g : A -> bool) (l : list A) :
  Forall (fun x => f x = g x) l -> existsb f l = existsb g l.
Proof. induction 1 as [|x l Hx _ IH]; [reflexivity|]. cbn. by rewrite Hx, IH. Qed.

Lemma shadowedIn_pointwise (f g : string -> option value) (ps : list string) :
  (forall p, f p = g p) -> Viper.shadowedIn f ps = Viper.shadowedIn g ps.
Proof.
  intros Hfg. induction ps as [|p ps IH]; [reflexivity|].
  cbn [Viper.shadowedIn]. by rewrite Hfg, IH.
Qed.

(** The lookup in the registry of a constructed configuration is the
    layered lookup. *)
Lemma find_registryFor w path cfg e key :
  (path <> "" -> fs w !! path = Some (Yaml cfg)) ->
  Viper.find (registryFor path cfg) e key = resolve e w path key.
Proof.
  intros Hfs.
  destruct (registryFor_settings path cfg) as (Ha & _ & _ & _ & Hd & Hc).
  unfold Viper.find, resolve.
  rewrite Ha, Hc, getEnv_registryFor, (fileValue_content w path cfg key Hfs).
  assert (Henv : Viper.isPathShadowedInAutoEnv (registryFor path cfg) e key
                 = parentVariableSet e key).
  { unfold Viper.isPathShadowedInAutoEnv, parentVariableSet.
    apply existsb_pointwise, Forall_forall. intros p _.
    by rewrite getEnv_registryFor. }
  assert (Hfile : Viper.isPathShadowedInConfig (registryFor path cfg) key
                  = fileValueAbove w path key).
  { unfold Viper.isPathShadowedInConfig, fileValueAbove.
    apply shadowedIn_pointwise. intros p.
    by rewrite Hc, (fileValue_content w path cfg p Hfs). }
  assert (Hdef : Viper.searchDefaults (registryFor path cfg) key = registeredDefault key).
  { unfold registeredDefault, Viper.searchDefaults. by rewrite Hd. }
  rewrite Henv, Hfile, Hdef. reflexivity.
Qed.

Section Lookup.
Context `{Strconv}.

Lemma castAs_self (x : value) : Cast.castAs x x = x.
Proof. destruct x; reflexivity. Qed.

Lemma convert_castAs (k : kind) (ty x : value) :
  kindOf ty = Some k -> convert k (Some (Cast.castAs ty x)) = convert k (Some x).
Proof. destruct ty; intros [= <-]; reflexivity. Qed.

Lemma convert_castAs_self (k : kind) (x : value) :
  convert k (Some (Cast.castAs x x)) = convert k (Some x).
Proof. by rewrite castAs_self. Qed.

Lemma ToLower_keyOf (a : Accessor) : Strings.ToLower (keyOf a) = keyOf a.
Proof. destruct a; vm_compute; reflexivity. Qed.

Lemma registeredDefault_kind (a : Accessor) (d : value) :
  Viper.defaults initialRegistry !! keyOf a = Some d -> kindOf d = Some (kindOfAccessor a).
Proof.
  destruct a; vm_compute; intros Hd; inversion Hd; reflexivity.
Qed.

Lemma call_Get (a : Accessor) (c : ViperConfig) (e : Env) :
  call a c e = convert (kindOfAccessor a) (Viper.Get (v c) e (keyOf a)).
Proof. destruct a; reflexivity. Qed.

Lemma Get_registryFor w path cfg e key :
  (path <> "" -> fs w !! path = Some (Yaml cfg)) ->
  Strings.ToLower key = key ->
  Viper.Get (registryFor path cfg) e key =
    match resolve e w path key with
    | None => None
    | Some val => Some (Cast.castAs (default val (Viper.defaults initialRegistry !! key)) val)
    end.
Proof.
  intros Hfs Hk. unfold Viper.Get. rewrite Hk, (find_registryFor w) by done.
  destruct (registryFor_settings path cfg) as (_ & _ & _ & -> & -> & _).
  reflexivity.
Qed.

Lemma convert_Get_registryFor (a : Accessor) w path cfg e :
  (path <> "" -> fs w !! path = Some (Yaml cfg)) ->
  convert (kindOfAccessor a) (Viper.Get (registryFor path cfg) e (keyOf a)) =
    convert (kindOfAccessor a) (resolve e w path (keyOf a)).
Proof.
  intros Hfs. rewrite (Get_registryFor w) by (done || apply ToLower_keyOf).
  destruct (resolve _ _ _ _) as [val|]; [|reflexivity].
  destruct (Viper.defaults initialRegistry !! keyOf a) as [d|] eqn:Hd; cbn [default].
  - apply convert_castAs. by apply registeredDefault_kind.
  - apply convert_castAs_self.
Qed.
End Lookup.

(** ** What a constructed configuration holds *)

Section Constructed.
Context `{Strconv} {Client : Type} `{Loaders Client}.

Lemma GetString_excluded w path cfg e :
  (path <> "" -> fs w !! path = Some (Yaml cfg)) ->
  Viper.GetString (registryFor path cfg) e varVerificationExcludedEmailDomains =
    Cast.ToString (resolve e w path varVerificationExcludedEmailDomains).
Proof.
  intros Hfs. unfold Viper.GetString. rewrite (Get_registryFor w) by done.
  destruct (resolve _ _ _ _) as [val|]; [|reflexivity].
  change (Viper.defaults initialRegistry !! varVerificationExcludedEmailDomains)
    with (@None value).
  cbn [default]. by rewrite castAs_self.
Qed.

(** Before the file is read the option is what its variable holds. *)
Lemma GetString_excluded_initial e :
  Viper.GetString initialRegistry e varVerificationExcludedEmailDomains =
    default "" (envValue e varVerificationExcludedEmailDomains).
Proof.
  change initialRegistry with (registryFor "" ∅).
  rewrite (GetString_excluded {| env := ∅; fs := ∅; trace := [] |})
    by (intros Hne; by destruct Hne).
  unfold resolve. destruct (envValue _ _); [reflexivity|].
  destruct (parentVariableSet _ _); [reflexivity|].
  change (fileValue _ "" _) with (@None value).
  change (fileValueAbove _ "" _) with false.
  reflexivity.
Qed.

Lemma resolve_excluded_empty e w path :
  Cast.ToString (resolve e w path varVerificationExcludedEmailDomains) = "" ->
  envValue e varVerificationExcludedEmailDomains = None.
Proof.
  unfold resolve, envValue.
  destruct (e !! envName _) as [val|]; [|done].
  destruct (decide (val = "")); [done|]. cbn. done.
Qed.

Lemma excludedDomains_finalConfig w path cfg secret e :
  (path <> "" -> fs w !! path = Some (Yaml cfg)) ->
  excludedDomains (finalConfig path cfg secret e) =
    Strings.FieldsFunc
      (Viper.GetString (registryFor path cfg) e varVerificationExcludedEmailDomains)
      isComma.
Proof.
  intros Hfs. unfold finalConfig. cbn [excludedDomains].
  destruct (decide _) as [Hempty|]; [|reflexivity].
  rewrite Hempty. unfold initialConfig. cbn [excludedDomains].
  rewrite GetString_excluded_initial.
  rewrite (GetString_excluded w) in Hempty by done.
  apply resolve_excluded_empty in Hempty. rewrite Hempty. reflexivity.
Qed.

(** What a successful construction returns. *)
Lemma New_ok path cl w c w' :
  New path cl w = (Some c, None, w') ->
  exists cfg,
    (path <> "" -> fs w !! path = Some (Yaml cfg))
    /\ v c = registryFor path cfg
    /\ secretValues c = loadedSecret cl w
    /\ excludedDomains c =
         Strings.FieldsFunc
           (Viper.GetString (v c) (env w') varVerificationExcludedEmailDomains) isComma
    /\ env w' = loadedEnv cl w
    /\ fs w' = fs w
    /\ (secretOutcome cl w).1.2 = None
    /\ (configMapOutcome cl w).1 = None.
Proof.
  rewrite New_eq.
  destruct ((secretOutcome cl w).1.2) as [err|]; [discriminate|].
  destruct ((configMapOutcome cl w).1) as [err|]; [discriminate|].
  destruct (decide (path = "")) as [->|Hpath].
  - intros Heq. injection Heq as Hc Hw. subst c w'. exists ∅.
    cbn [v secretValues excludedDomains initialConfig env fs].
    change (registryFor "" ∅) with initialRegistry.
    split; [intros Hne; by destruct Hne|].
    split; [exact eq_refl|]. split; [exact eq_refl|]. split; [exact eq_refl|].
    split; [exact eq_refl|]. split; [exact eq_refl|]. split; exact eq_refl.
  - destruct (fs w !! path) as [[err|err|cfg]|] eqn:Hfile; try discriminate.
    intros Heq. injection Heq as Hc Hw. subst c w'. exists cfg.
    split; [intros _; exact eq_refl|].
    split; [exact eq_refl|]. split; [exact eq_refl|].
    split; [apply (excludedDomains_finalConfig w); intros _; exact Hfile|].
    cbn [env fs].
    split; [exact eq_refl|]. split; [exact eq_refl|]. split; exact eq_refl.
Qed.

(** Every typed accessor returns the conversion of the layered lookup. *)
Lemma call_resolve path cl w c w' a e :
  New path cl w = (Some c, None, w') ->
  call a c e = convert (kindOfAccessor a) (resolve e w path (keyOf a)).
Proof.
  intros (cfg & Hfs & Hv & _)%New_ok.
  by rewrite call_Get, Hv, (convert_Get_registryFor a w).
Qed.

Lemma excluded_resolve path cl w c w' :
  New path cl w = (Some c, None, w') ->
  GetVerificationExcludedEmailDomains c =
    Strings.FieldsFunc
      (Cast.ToString (resolve (env w') w path varVerificationExcludedEmailDomains))
      isComma.
Proof.
  intros (cfg & Hfs & Hv & _ & Hx & _)%New_ok.
  unfold GetVerificationExcludedEmailDomains.
  by rewrite Hx, Hv, (GetString_excluded w).
Qed.
End Constructed.

(** The layered lookup follows the order of precedence. *)
Lemma resolve_followsPrecedence e w path key (P : option value -> Prop) :
  P (resolve e w path key) -> followsPrecedence e w path key P.
Proof.
  unfold resolve, followsPrecedence. intros HP.
  split; [|split; [|split; [|split]]].
  - intros val He. by rewrite He in HP.
  - intros He Hp. by rewrite He, Hp in HP.
  - intros x He Hp Hf _. by rewrite He, Hp, Hf in HP.
  - intros He Hp Hf Ha. by rewrite He, Hp, Hf, Ha in HP.
  - intros He Hp Hf Ha. by rewrite He, Hp, Hf, Ha in HP.
Qed.

(** ** The registered defaults *)

Lemma initialRegistry_defaults_recognized :
  Forall (fun key => is_Some (Viper.defaults initialRegistry !! key)
                     <-> key ∉ optionsWithoutDefault) recognizedOptions.
Proof. apply (bool_decide_unpack _). vm_compute. exact I. Qed.

Lemma initialRegistry_defaults_size :
  size (Viper.defaults initialRegistry) = 19%nat
  /\ dom (Viper.defaults initialRegistry) ⊆ list_to_set recognizedOptions.
Proof.
  split; [vm_compute; reflexivity|].
  apply (bool_decide_unpack _). vm_compute. exact I.
Qed.

(** ** The configuration contract *)

Section Contract.
Context `{Strconv} {Client : Type} `{Loaders Client}.

(** C1 (as the code has it): for every recognized non-secret key the
    precedence is fixed and total, with the environment first. An accessor
    returns the conversion of: the key's bound environment variable when
    that is set to a non-empty string; else nothing (the zero value) when
    the variable of a path above the key is set, such as REGISTRATION_HTTP
    for http.address; else the value the file holds at the key; else
    nothing when the file holds a value that is not a map above the key;
    else the registered default. The excluded-domains list is the fields
    of the value so found in the environment of the construction. *)
Theorem environment_overrides_file_overrides_default
    (path : string) (cl : Client) (w w' : World) (c : ViperConfig) :
  New path cl w = (Some c, None, w') ->
  (forall (a : Accessor) (e : Env),
      followsPrecedence e w path (keyOf a)
        (fun x => call a c e = convert (kindOfAccessor a) x))
  /\ followsPrecedence (env w') w path varVerificationExcludedEmailDomains
       (fun x => GetVerificationExcludedEmailDomains c
                 = Strings.FieldsFunc (Cast.ToString x) isComma).
Proof.
  intros Hnew. split.
  - intros a e. apply resolve_followsPrecedence.
    exact (call_resolve _ _ _ _ _ a e Hnew).
  - apply resolve_followsPrecedence. exact (excluded_resolve _ _ _ _ _ Hnew).
Qed.

Lemma convert_registeredDefault (a : Accessor) :
  convert (kindOfAccessor a) (registeredDefault (keyOf a)) = documentedDefault a.
Proof. destruct a; vm_compute; reflexivity. Qed.

(** C2 (as the code has it): for every recognized key, when neither the
    environment nor the file supplies a value for the key or above it (no
    variable of the key or of a path above it is set, the file holds no
    value at the key and none but maps above it), its accessor returns the
    documented default: e.g. [GetHTTPAddress] gives 0.0.0.0:8080,
    [GetVerificationDailyLimit] and [GetVerificationCodeExpiresInMin] give
    5, [GetWoopraDomain] and [GetSegmentWriteKey] give the empty string,
    and the excluded-domains list is empty. *)
Theorem accessors_return_documented_defaults
    (path : string) (cl : Client) (w w' : World) (c : ViperConfig) :
  New path cl w = (Some c, None, w') ->
  (forall (a : Accessor) (e : Env),
      envValue e (keyOf a) = None ->
      parentVariableSet e (keyOf a) = false ->
      fileValue w path (keyOf a) = None ->
      fileValueAbove w path (keyOf a) = false ->
      call a c e = documentedDefault a)
  /\ (envValue (env w') varVerificationExcludedEmailDomains = None ->
      parentVariableSet (env w') varVerificationExcludedEmailDomains = false ->
      fileValue w path varVerificationExcludedEmailDomains = None ->
      fileValueAbove w path varVerificationExcludedEmailDomains = false ->
      GetVerificationExcludedEmailDomains c = []).
Proof.
  intros Hnew. split.
  - intros a e He Hp Hf Ha.
    rewrite (call_resolve _ _ _ _ _ a e Hnew). unfold resolve.
    rewrite He, Hp, Hf, Ha. apply convert_registeredDefault.
  - intros He Hp Hf Ha. rewrite (excluded_resolve _ _ _ _ _ Hnew).
    unfold resolve. rewrite He, Hp, Hf, Ha. reflexivity.
Qed.

(** C3: the Twilio accessors depend only on the secret mapping loaded at
    construction: two constructions whose secret loader answered the same
    mapping agree on the three accessors, whatever their file paths,
    clients and worlds (environment, files); each accessor is the entry of
    the loaded mapping. *)
Theorem twilio_accessors_depend_only_on_secret
    (path1 path2 : string) (cl1 cl2 : Client) (w1 w2 w1' w2' : World)
    (c1 c2 : ViperConfig) :
  New path1 cl1 w1 = (Some c1, None, w1') ->
  New path2 cl2 w2 = (Some c2, None, w2') ->
  loadedSecret cl1 w1 = loadedSecret cl2 w2 ->
  GetTwilioAccountSID c1 = GetTwilioAccountSID c2
  /\ GetTwilioAuthToken c1 = GetTwilioAuthToken c2
  /\ GetTwilioFromNumber c1 = GetTwilioFromNumber c2
  /\ GetTwilioAccountSID c1 = index (loadedSecret cl1 w1) varTwilioAccountSID
  /\ GetTwilioAuthToken c1 = index (loadedSecret cl1 w1) varTwilioAuthToken
  /\ GetTwilioFromNumber c1 = index (loadedSecret cl1 w1) varTwilioFromNumber.
Proof.
  intros (_ & _ & _ & Hs1 & _)%New_ok (_ & _ & _ & Hs2 & _)%New_ok Hsame.
  unfold GetTwilioAccountSID, GetTwilioAuthToken, GetTwilioFromNumber.
  rewrite Hs1, Hs2, Hsame. repeat split.
Qed.

(** C4: construction is all-or-nothing. [New] returns the loader's error
    and no configuration when the secret loader fails, and when the
    config-map loader fails; with a non-empty path whose file is missing,
    unreadable or not valid YAML it returns no configuration and the cause
    wrapped as "failed to read config file: ..."; with working loaders and
    an empty path it returns a configuration and reads no file. In every
    case it returns either a configuration or an error, never both. *)
Theorem construction_is_all_or_nothing (path : string) (cl : Client) (w : World) :
  (forall err, (secretOutcome cl w).1.2 = Some err ->
     (New path cl w).1 = (None, Some err))
  /\ (forall err, (secretOutcome cl w).1.2 = None ->
        (configMapOutcome cl w).1 = Some err ->
        (New path cl w).1 = (None, Some err))
  /\ (forall cause, (secretOutcome cl w).1.2 = None ->
        (configMapOutcome cl w).1 = None ->
        path <> "" -> fileError w path = Some cause ->
        (New path cl w).1 = (None, Some (Wrap cause "failed to read config file"))
        /\ Error (Wrap cause "failed to read config file")
           = "failed to read config file: " ++ Error cause)
  /\ ((secretOutcome cl w).1.2 = None ->
      (configMapOutcome cl w).1 = None ->
      path = "" ->
      exists c, (New path cl w).1 = (Some c, None)
                /\ trace (New path cl w).2 = (trace w ++ loadEvents cl w)%list
                /\ forall p, EvReadFile p ∉ loadEvents cl w)
  /\ ((exists c, (New path cl w).1 = (Some c, None))
      \/ (exists err, (New path cl w).1 = (None, Some err))).
Proof.
  rewrite New_eq. split; [|split; [|split; [|split]]].
  - intros err ->. reflexivity.
  - intros err -> ->. reflexivity.
  - intros cause -> -> Hpath Hcause.
    destruct (decide (path = "")) as [|_]; [done|].
    unfold fileError in Hcause.
    destruct (fs w !! path) as [[e|e|cfg]|]; [| |discriminate Hcause|];
      injection Hcause as <-; split; reflexivity.
  - intros -> -> ->. cbn [decide]. eexists. split; [reflexivity|].
    split; [reflexivity|].
    intros p Hin. unfold loadEvents, secretEvents, configMapEvents in Hin.
    cbn [app] in Hin.
    repeat (apply elem_of_cons in Hin as [Hin|Hin]; [discriminate Hin|]).
    by apply elem_of_nil in Hin.
  - destruct ((secretOutcome cl w).1.2) as [err|]; [right; eauto|].
    destruct ((configMapOutcome cl w).1) as [err|]; [right; eauto|].
    destruct (decide (path = "")); [left; eauto|].
    destruct (fs w !! path) as [[e|e|cfg]|]; cbn [fst]; eauto.
Qed.

(** C5: the excluded-domains list of a constructed configuration is the
    comma-separated fields of the excluded-domains configuration string:
    for the string redhat.com,ibm.com it is the two domains, for the empty
    string it is empty. *)
Theorem excluded_domains_are_the_comma_fields
    (path : string) (cl : Client) (w w' : World) (c : ViperConfig) :
  New path cl w = (Some c, None, w') ->
  GetVerificationExcludedEmailDomains c =
    Strings.FieldsFunc
      (Viper.GetString (v c) (env w') varVerificationExcludedEmailDomains) isComma
  /\ (Viper.GetString (v c) (env w') varVerificationExcludedEmailDomains
        = "redhat.com,ibm.com" ->
      GetVerificationExcludedEmailDomains c = ["redhat.com"; "ibm.com"])
  /\ (Viper.GetString (v c) (env w') varVerificationExcludedEmailDomains = "" ->
      GetVerificationExcludedEmailDomains c = []).
Proof.
  intros (_ & _ & _ & _ & Hx & _)%New_ok.
  unfold GetVerificationExcludedEmailDomains.
  split; [exact Hx|]. split; intros Hs; rewrite Hx, Hs; reflexivity.
Qed.

(** C6 (as the code has it): with a non-empty path whose file was read,
    the excluded-domains list is re-derived, by splitting at the commas,
    from the merged value of the option when that value is not empty, and
    is otherwise the list derived before the file was loaded. The merged
    value follows the order of precedence: it is the option's environment
    variable when that is set, and the file's value only when neither
    that variable nor REGISTRATION_VERIFICATION is set. So the list
    differs from the one derived before only if the file supplies a
    non-empty value that no variable overrides, and it is then the fields
    of the file's value. *)
Theorem excluded_domains_after_file_load
    (path : string) (cl : Client) (w w0 w' : World) (c0 c : ViperConfig) :
  LoadConfig cl w = (Some c0, None, w0) ->
  New path cl w = (Some c, None, w') ->
  path <> "" ->
  let merged := Viper.GetString (v c) (env w') varVerificationExcludedEmailDomains in
  excludedDomains c =
    (if decide (merged = "") then excludedDomains c0
     else Strings.FieldsFunc merged isComma)
  /\ followsPrecedence (env w') w path varVerificationExcludedEmailDomains
       (fun x => merged = Cast.ToString x)
  /\ (excludedDomains c <> excludedDomains c0 ->
      envValue (env w') varVerificationExcludedEmailDomains = None
      /\ parentVariableSet (env w') varVerificationExcludedEmailDomains = false
      /\ exists x,
           fileValue w path varVerificationExcludedEmailDomains = Some x
           /\ Cast.ToString (Some x) <> ""
           /\ excludedDomains c = Strings.FieldsFunc (Cast.ToString (Some x)) isComma).
Proof.
  intros Hload Hnew Hpath merged.
  destruct (New_ok _ _ _ _ _ Hnew) as (cfg & Hfs & Hv & _ & Hx & Henv & _ & Hs & Hm).
  fold merged in Hx.
  assert (Hmerged : merged
                    = Cast.ToString (resolve (env w') w path
                                       varVerificationExcludedEmailDomains)).
  { unfold merged. rewrite Hv. by apply GetString_excluded. }
  assert (Hbefore : excludedDomains c0
                    = Strings.FieldsFunc
                        (default "" (envValue (env w') varVerificationExcludedEmailDomains))
                        isComma).
  { rewrite LoadConfig_eq, Hs, Hm in Hload. injection Hload as <- _.
    unfold initialConfig. cbn [excludedDomains].
    by rewrite GetString_excluded_initial, Henv. }
  assert (Hkeep : merged = "" -> excludedDomains c = excludedDomains c0).
  { intros Hempty. rewrite Hx, Hbefore, Hempty.
    rewrite Hmerged in Hempty. apply resolve_excluded_empty in Hempty.
    by rewrite Hempty. }
  split; [|split].
  - destruct (decide (merged = "")) as [Hempty|_]; [by apply Hkeep|exact Hx].
  - apply resolve_followsPrecedence. exact Hmerged.
  - intros Hdiff. rewrite Hx, Hbefore in Hdiff.
    assert (Hne : merged <> "") by (intros Hempty; apply Hdiff; rewrite <- Hbefore, <- Hx; by apply Hkeep).
    rewrite Hmerged in Hdiff, Hne. rewrite Hx, Hmerged. clear Hmerged Hkeep Hx Hbefore.
    unfold resolve in *.
    destruct (envValue (env w') varVerificationExcludedEmailDomains) as [val|];
      [by destruct Hdiff|].
    destruct (parentVariableSet (env w') varVerificationExcludedEmailDomains);
      [by destruct Hne|].
    destruct (fileValue w path varVerificationExcludedEmailDomains) as [x|].
    + split; [reflexivity|]. split; [reflexivity|]. by exists x.
    + destruct (fileValueAbove w path varVerificationExcludedEmailDomains);
        by destruct Hne.
Qed.

(** C7: [IsTestingMode] is true exactly when [GetEnvironment] is the
    string unit-tests, for every configuration and environment; in
    particular it is false when the environment is prod. *)
Theorem testing_mode_iff_unit_tests (c : ViperConfig) (e : Env) :
  (IsTestingMode c e = true <-> GetEnvironment c e = "unit-tests")
  /\ (GetEnvironment c e = "prod" -> IsTestingMode c e = false).
Proof.
  unfold IsTestingMode, UnitTestsEnvironment. split.
  - apply bool_decide_eq_true.
  - intros ->. reflexivity.
Qed.

(** C8 (as the code has it): construction registers a default for 19 of
    the 22 recognized options: for every recognized option but
    verification.excluded_email_domains, woopra.domain and
    segment.write_key, which get none; nothing but recognized options is
    given a default. *)
Theorem defaults_registered_for_all_but_three
    (path : string) (cl : Client) (w w' : World) (c : ViperConfig) :
  New path cl w = (Some c, None, w') ->
  (forall key, key ∈ recognizedOptions ->
     (is_Some (Viper.defaults (v c) !! key) <-> key ∉ optionsWithoutDefault))
  /\ size (Viper.defaults (v c)) = 19%nat
  /\ dom (Viper.defaults (v c)) ⊆ list_to_set recognizedOptions
  /\ List.length recognizedOptions = 22%nat.
Proof.
  intros (cfg & _ & Hv & _)%New_ok.
  destruct (registryFor_settings path cfg) as (_ & _ & _ & _ & Hd & _).
  rewrite Hv, Hd. split.
  - intros key Hkey. revert key Hkey. apply Forall_forall.
    exact initialRegistry_defaults_recognized.
  - split; [|split]; [apply initialRegistry_defaults_size..|reflexivity].
Qed.

(** C9: [PrintConfig] logs one entry, made of the keys of the registry
    (of its file and default layers) each with the value the registry
    gives it, and nothing of the secret mapping: two configurations with
    the same registry log the same, whatever their secret mappings. *)
Theorem PrintConfig_is_blind_to_secrets
    (r : Viper.Viper) (s1 s2 : gmap string string) (x1 x2 : list string) (w : World) :
  let c1 := {| v := r; secretValues := s1; excludedDomains := x1 |} in
  let c2 := {| v := r; secretValues := s2; excludedDomains := x2 |} in
  PrintConfig c1 w = PrintConfig c2 w
  /\ exists kvs,
       (PrintConfig c1 w).2 =
         {| env := env w; fs := fs w;
            trace := trace w ++
              [EvLog "configuration" "Registration service configuration variables:" kvs] |}
       /\ kvs.*1 = Viper.AllKeys r
       /\ forall key x, (key, x) ∈ kvs ->
            (key ∈ dom (Viper.config r) \/ key ∈ dom (Viper.defaults r))
            /\ x = Viper.Get r (env w) key.
Proof.
  intros c1 c2. split; [reflexivity|].
  eexists. split; [reflexivity|]. split.
  - rewrite <- list_fmap_compose. apply list_fmap_id.
  - intros key x Hin. apply list_elem_of_fmap in Hin as (k & [= -> ->] & Hk).
    split; [|reflexivity].
    unfold Viper.AllKeys, Viper.leafKeys in Hk.
    apply elem_of_elements, elem_of_union in Hk as [Hk|Hk].
    + left. revert Hk. apply subseteq_dom, map_filter_subseteq.
    + right. by apply elem_of_filter in Hk as [_ Hk].
Qed.

(** C10: every construction changes the process environment before it
    calls the loaders: [LoadConfig] (hence [New]) first sets
    HOST_OPERATOR_SECRET_NAME to host-operator-secret and then calls the
    secret loader; when that succeeds it sets HOST_OPERATOR_CONFIG_MAP_NAME
    to host-operator-config and then calls the config-map loader. Each
    loader is called in an environment where its variable holds that
    value, whatever it held before. *)
Theorem LoadConfig_sets_resource_names (path : string) (cl : Client) (w : World) :
  let e1 := <["HOST_OPERATOR_SECRET_NAME" := "host-operator-secret"]> (env w) in
  let e2 := <["HOST_OPERATOR_CONFIG_MAP_NAME" := "host-operator-config"]>
              (LoadFromSecret "HOST_OPERATOR_SECRET_NAME" cl e1).2 in
  e1 !! "HOST_OPERATOR_SECRET_NAME" = Some "host-operator-secret"
  /\ e2 !! "HOST_OPERATOR_CONFIG_MAP_NAME" = Some "host-operator-config"
  /\ trace (LoadConfig cl w).2 =
       (trace w ++
        [ EvSetenv "HOST_OPERATOR_SECRET_NAME" "host-operator-secret";
          EvLoadFromSecret "HOST_OPERATOR_SECRET_NAME" e1 ] ++
        match (LoadFromSecret "HOST_OPERATOR_SECRET_NAME" cl e1).1.2 with
        | Some _ => []
        | None =>
            [ EvSetenv "HOST_OPERATOR_CONFIG_MAP_NAME" "host-operator-config";
              EvLoadFromConfigMap "REGISTRATION" "HOST_OPERATOR_CONFIG_MAP_NAME" e2 ]
        end)%list
  /\ exists more, trace (New path cl w).2 = (trace (LoadConfig cl w).2 ++ more)%list.
Proof.
  intros e1 e2.
  split; [apply lookup_insert_eq|]. split; [apply lookup_insert_eq|].
  rewrite New_eq, LoadConfig_eq.
  change (LoadFromSecret "HOST_OPERATOR_SECRET_NAME" cl e1) with (secretOutcome cl w).
  split.
  - destruct ((secretOutcome cl w).1.2) as [err|]; [reflexivity|].
    destruct ((configMapOutcome cl w).1) as [err|]; reflexivity.
  - destruct ((secretOutcome cl w).1.2) as [err|]; [exists []; by rewrite app_nil_r|].
    destruct ((configMapOutcome cl w).1) as [err|]; [exists []; by rewrite app_nil_r|].
    destruct (decide (path = "")); [exists []; by rewrite app_nil_r|].
    exists [EvReadFile path]. cbn [snd trace]. by rewrite <- app_assoc.
Qed.
End Contract.

(** ** The contract on the sample cluster *)

Section Examples.
#[local] Existing Instance Sample.conversions.
#[local] Existing Instance Sample.loaders.

Lemma sample_plain :
  New "" Sample.cluster Sample.bare = (Some Sample.plain, None, Sample.afterPlain).
Proof. rewrite New_eq. reflexivity. Qed.

Lemma sample_fromFile :
  New Sample.path Sample.cluster Sample.both
    = (Some Sample.fromFile, None, Sample.afterFile).
Proof. rewrite New_eq. reflexivity. Qed.

Lemma sample_LoadConfig :
  LoadConfig Sample.cluster Sample.both
    = (Some (initialConfig (Sample.secretData Sample.cluster)
               (loadedEnv Sample.cluster Sample.both)), None,
       {| env := loadedEnv Sample.cluster Sample.both; fs := fs Sample.both;
          trace := trace Sample.both ++ loadEvents Sample.cluster Sample.both |}).
Proof. rewrite LoadConfig_eq. reflexivity. Qed.

Lemma sample_underShadow :
  New "" Sample.cluster Sample.shadowed
    = (Some Sample.underShadow, None, Sample.afterShadow).
Proof. rewrite New_eq. reflexivity. Qed.

Lemma sample_fromHidden :
  New Sample.path Sample.cluster Sample.hidden
    = (Some Sample.fromHidden, None, Sample.afterHidden).
Proof. rewrite New_eq. reflexivity. Qed.

Lemma sample_fromScalar :
  New Sample.path Sample.cluster Sample.scalarAbove
    = (Some Sample.fromScalar, None, Sample.afterScalar).
Proof. rewrite New_eq. reflexivity. Qed.

(** C1, counterexample: in the sample world the address is set both in the
    environment and in the file, and the accessor returns the
    environment's: a value the file supplies does not override the
    environment variable of the same key. *)
Lemma file_value_does_not_override_environment : ~ file_overrides_environment.
Proof.
  intros Hclaim.
  assert (Hfile : fileValue Sample.both Sample.path (keyOf AGetHTTPAddress)
                  = Some (VString "10.0.0.1:7070")) by reflexivity.
  specialize (Hclaim Sample.conversions Sample.Cluster Sample.loaders _ _ _ _ _
                AGetHTTPAddress _ sample_fromFile Hfile).
  assert (Hget : call AGetHTTPAddress Sample.fromFile (env Sample.afterFile)
                 = RString "127.0.0.1:9090") by reflexivity.
  rewrite Hget in Hclaim. discriminate Hclaim.
Qed.

(** C2, counterexample: with REGISTRATION_HTTP set, and no variable and no
    file value for http.address itself, [GetHTTPAddress] returns the empty
    string, not the documented 0.0.0.0:8080. *)
Lemma variable_above_the_key_hides_the_default : ~ default_when_key_not_supplied.
Proof.
  intros Hclaim.
  specialize (Hclaim Sample.conversions Sample.Cluster Sample.loaders _ _ _ _ _
                AGetHTTPAddress (env Sample.afterShadow) sample_underShadow
                eq_refl eq_refl).
  assert (Hget : call AGetHTTPAddress Sample.underShadow (env Sample.afterShadow)
                 = RString "") by reflexivity.
  rewrite Hget in Hclaim. discriminate Hclaim.
Qed.

(** C6, counterexample: the file supplies redhat.com,ibm.com for the
    excluded domains, the option's own variable is not set and
    REGISTRATION_VERIFICATION is: the list is not re-derived, it stays
    empty as it was before the file was loaded, and is not the fields of
    the file's value. *)
Lemma file_value_does_not_rederive_the_list : ~ file_value_rederives_the_list.
Proof.
  intros Hclaim.
  assert (Hpath : Sample.path <> "") by discriminate.
  assert (Hfile : fileValue Sample.hidden Sample.path
                    varVerificationExcludedEmailDomains
                  = Some (VString "redhat.com,ibm.com")) by reflexivity.
  specialize (Hclaim Sample.conversions Sample.Cluster Sample.loaders _ _ _ _ _ _
                sample_fromHidden Hpath Hfile).
  assert (Hlist : excludedDomains Sample.fromHidden = []) by reflexivity.
  rewrite Hlist in Hclaim.
  assert (Hne : Cast.ToString (Some (VString "redhat.com,ibm.com")) <> "")
    by discriminate.
  specialize (Hclaim Hne). discriminate Hclaim.
Qed.

(** C8, counterexample: a configuration built on the sample cluster has no
    registered default for woopra.domain, a recognized option. *)
Lemma some_option_has_no_default : ~ every_option_has_a_default.
Proof.
  intros Hclaim.
  destruct (Hclaim Sample.conversions Sample.Cluster Sample.loaders _ _ _ _ _
              sample_plain varWoopraDomain) as [x Hx].
  - apply (bool_decide_unpack _). reflexivity.
  - assert (Hnone : Viper.defaults (v Sample.plain) !! varWoopraDomain = None)
      by reflexivity.
    rewrite Hnone in Hx. discriminate Hx.
Qed.

Lemma environment_overrides_file_witness :
  call AGetHTTPAddress Sample.fromFile (env Sample.afterFile) = RString "127.0.0.1:9090"
  /\ call AGetHTTPAddress Sample.underShadow (env Sample.afterShadow) = RString ""
  /\ GetVerificationExcludedEmailDomains Sample.fromFile = ["redhat.com"; "ibm.com"]
  /\ call AGetHTTPAddress Sample.fromScalar (env Sample.afterScalar) = RString ""
  /\ call AGetEnvironment Sample.fromFile (env Sample.afterFile) = RString "prod".
Proof.
  destruct (environment_overrides_file_overrides_default _ _ _ _ _ sample_fromFile)
    as [Hfile Hdom].
  destruct (environment_overrides_file_overrides_default _ _ _ _ _ sample_underShadow)
    as [Hshadow _].
  destruct (environment_overrides_file_overrides_default _ _ _ _ _ sample_fromScalar)
    as [Hscalar _].
  split; [|split; [|split; [|split]]].
  - apply (proj1 (Hfile AGetHTTPAddress (env Sample.afterFile)) "127.0.0.1:9090").
    reflexivity.
  - apply (proj1 (proj2 (Hshadow AGetHTTPAddress (env Sample.afterShadow))));
      reflexivity.
  - apply (proj1 (proj2 (proj2 Hdom)) (VString "redhat.com,ibm.com"));
      [reflexivity|reflexivity|reflexivity|exact I].
  - apply (proj1 (proj2 (proj2 (proj2 (Hscalar AGetHTTPAddress (env Sample.afterScalar))))));
      reflexivity.
  - apply (proj2 (proj2 (proj2 (proj2 (Hfile AGetEnvironment (env Sample.afterFile))))));
      reflexivity.
Defined.

Lemma documented_defaults_witness :
  call AGetHTTPAddress Sample.plain (env Sample.afterPlain) = RString "0.0.0.0:8080"
  /\ call AGetVerificationDailyLimit Sample.plain (env Sample.afterPlain) = RInt 5
  /\ call AGetWoopraDomain Sample.plain (env Sample.afterPlain) = RString ""
  /\ GetVerificationExcludedEmailDomains Sample.plain = [].
Proof.
  destruct (accessors_return_documented_defaults _ _ _ _ _ sample_plain)
    as [Hcall Hdom].
  split; [|split; [|split]].
  - apply (Hcall AGetHTTPAddress); reflexivity.
  - apply (Hcall AGetVerificationDailyLimit); reflexivity.
  - apply (Hcall AGetWoopraDomain); reflexivity.
  - apply Hdom; reflexivity.
Defined.

Lemma twilio_accessors_witness :
  GetTwilioAccountSID Sample.plain = GetTwilioAccountSID Sample.fromFile
  /\ GetTwilioAuthToken Sample.plain = GetTwilioAuthToken Sample.fromFile
  /\ GetTwilioFromNumber Sample.plain = GetTwilioFromNumber Sample.fromFile
  /\ GetTwilioAccountSID Sample.plain = "AC0123".
Proof.
  destruct (twilio_accessors_depend_only_on_secret _ _ _ _ _ _ _ _ _ _
              sample_plain sample_fromFile)
    as (Ha & Hb & Hc & Hd & _); [reflexivity|].
  split; [exact Ha|split; [exact Hb|split; [exact Hc|]]].
  rewrite Hd. reflexivity.
Defined.

Lemma construction_witness :
  (New "" Sample.secretDown Sample.bare).1
    = (None, Some (errorString "secrets unavailable"))
  /\ (New "" Sample.configMapDown Sample.bare).1
     = (None, Some (errorString "config map unavailable"))
  /\ (New "/etc/broken.yaml" Sample.cluster Sample.both).1
     = (None, Some (Wrap (ConfigParseError (errorString "yaml: line 1"))
                      "failed to read config file"))
  /\ Error (Wrap (ConfigParseError (errorString "yaml: line 1")) "failed to read config file")
     = "failed to read config file: While parsing config: yaml: line 1"
  /\ (New "/etc/missing.yaml" Sample.cluster Sample.both).1
     = (None, Some (Wrap (errorString "open /etc/missing.yaml: no such file or directory")
                      "failed to read config file"))
  /\ exists c, (New "" Sample.cluster Sample.bare).1 = (Some c, None).
Proof.
  split; [|split; [|split; [|split; [|split]]]].
  - apply (proj1 (construction_is_all_or_nothing "" Sample.secretDown Sample.bare)).
    reflexivity.
  - apply (proj1 (proj2 (construction_is_all_or_nothing "" Sample.configMapDown Sample.bare)));
      reflexivity.
  - apply (proj1 (proj2 (proj2
             (construction_is_all_or_nothing "/etc/broken.yaml" Sample.cluster Sample.both))));
      [reflexivity|reflexivity|discriminate|reflexivity].
  - reflexivity.
  - apply (proj1 (proj2 (proj2
             (construction_is_all_or_nothing "/etc/missing.yaml" Sample.cluster Sample.both))));
      [reflexivity|reflexivity|discriminate|reflexivity].
  - destruct (proj1 (proj2 (proj2 (proj2
             (construction_is_all_or_nothing "" Sample.cluster Sample.bare)))))
      as (c & Hc & _); [reflexivity|reflexivity|reflexivity|].
    exists c. exact Hc.
Defined.

Lemma excluded_domains_witness :
  GetVerificationExcludedEmailDomains Sample.fromFile = ["redhat.com"; "ibm.com"]
  /\ GetVerificationExcludedEmailDomains Sample.plain = [].
Proof.
  split.
  - apply (proj1 (proj2 (excluded_domains_are_the_comma_fields _ _ _ _ _ sample_fromFile))).
    reflexivity.
  - apply (proj2 (proj2 (excluded_domains_are_the_comma_fields _ _ _ _ _ sample_plain))).
    reflexivity.
Defined.

Lemma excluded_domains_after_file_load_witness :
  excludedDomains Sample.fromFile = ["redhat.com"; "ibm.com"]
  /\ Viper.GetString (v Sample.fromFile) (env Sample.afterFile)
       varVerificationExcludedEmailDomains = "redhat.com,ibm.com"
  /\ excludedDomains (initialConfig (Sample.secretData Sample.cluster)
                        (loadedEnv Sample.cluster Sample.both)) = [].
Proof.
  assert (Hpath : Sample.path <> "") by discriminate.
  destruct (excluded_domains_after_file_load _ _ _ _ _ _ _
              sample_LoadConfig sample_fromFile Hpath) as (Hlist & Hmerged & _).
  assert (Hvalue : Viper.GetString (v Sample.fromFile) (env Sample.afterFile)
                     varVerificationExcludedEmailDomains = "redhat.com,ibm.com").
  { apply (proj1 (proj2 (proj2 Hmerged)) (VString "redhat.com,ibm.com"));
      [reflexivity|reflexivity|reflexivity|exact I]. }
  split; [|split; [exact Hvalue|reflexivity]].
  rewrite Hlist, Hvalue. reflexivity.
Defined.

Lemma testing_mode_witness :
  IsTestingMode Sample.plain (env Sample.afterPlain) = false.
Proof.
  apply (proj2 (testing_mode_iff_unit_tests Sample.plain (env Sample.afterPlain))).
  reflexivity.
Defined.

Lemma defaults_registered_witness :
  is_Some (Viper.defaults (v Sample.plain) !! varHTTPAddress)
  /\ ~ is_Some (Viper.defaults (v Sample.plain) !! varSegmentWriteKey)
  /\ size (Viper.defaults (v Sample.plain)) = 19%nat.
Proof.
  destruct (defaults_registered_for_all_but_three _ _ _ _ _ sample_plain)
    as (Hkeys & Hsize & _).
  split; [|split; [|exact Hsize]].
  - apply (Hkeys varHTTPAddress); apply (bool_decide_unpack _); reflexivity.
  - intros Hsome. apply (Hkeys varSegmentWriteKey) in Hsome.
    + apply Hsome. apply (bool_decide_unpack _). reflexivity.
    + apply (bool_decide_unpack _). reflexivity.
Defined.
End Examples.

(** * Further properties of the package *)

(** ** Strings and the fields of a comma-separated list *)

Lemma append_cons (c : ascii) (s t : string) : String c s ++ t = String c (s ++ t).
Proof. reflexivity. Qed.

Lemma append_empty_r (s : string) : s ++ "" = s.
Proof. induction s as [|c s IH]; [reflexivity|]. by rewrite append_cons, IH. Qed.

Lemma append_associative (s t u : string) : (s ++ t) ++ u = s ++ (t ++ u).
Proof. induction s as [|c s IH]; [reflexivity|]. by rewrite !append_cons, IH. Qed.

Lemma noByte_app f (s t : string) :
  noByte f (s ++ t) = (noByte f s && noByte f t)%bool.
Proof.
  induction s as [|c s IH]; [reflexivity|].
  rewrite append_cons. cbn [noByte]. rewrite IH. by rewrite andb_assoc.
Qed.

Lemma fieldsFrom_fields f (s field : string) :
  noByte f field = true ->
  Forall (fun d => d <> "" /\ noByte f d = true) (Strings.fieldsFrom f s field).
Proof.
  revert field. induction s as [|c s IH]; intros field Hfield; cbn.
  - destruct (decide (field = "")); [constructor|]. by repeat constructor.
  - destruct (f c) eqn:Hc.
    + apply Forall_app. split; [|by apply IH].
      destruct (decide (field = "")); [constructor|]. by repeat constructor.
    + apply IH. rewrite noByte_app, Hfield. cbn [noByte andb]. by rewrite Hc.
Qed.

Lemma fieldsFrom_skip f (d rest field : string) :
  noByte f d = true ->
  Strings.fieldsFrom f (d ++ rest) field = Strings.fieldsFrom f rest (field ++ d).
Proof.
  revert field. induction d as [|c d IH]; intros field Hd.
  - by rewrite append_empty_r.
  - rewrite append_cons. cbn [Strings.fieldsFrom]. cbn [noByte] in Hd.
    apply andb_true_iff in Hd as [Hc Hd].
    apply negb_true_iff in Hc. rewrite Hc, IH by done.
    by rewrite append_associative.
Qed.

Lemma FieldsFunc_concat (l : list string) :
  Forall isField l ->
  Strings.FieldsFunc (String.concat "," l) isComma = l.
Proof.
  unfold Strings.FieldsFunc.
  induction l as [|d l IH]; intros Hl; [reflexivity|].
  apply Forall_cons in Hl as [[Hne Hd] Hl].
  destruct l as [|d' l].
  - cbn [String.concat]. rewrite <- (append_empty_r d) at 1.
    rewrite fieldsFrom_skip by done. cbn [Strings.fieldsFrom].
    change ("" ++ d) with d.
    destruct (decide (d = "")); done.
  - change (String.concat "," (d :: d' :: l))
      with (d ++ String ","%char (String.concat "," (d' :: l))).
    rewrite fieldsFrom_skip by done. cbn [Strings.fieldsFrom append].
    change (isComma ","%char) with true. cbn iota.
    change ("" ++ d) with d.
    rewrite IH by done.
    destruct (decide (d = "")); [done|reflexivity].
Qed.

(** ** Environment variables and defaults *)

Lemma envName_keyOf_inj (a b : Accessor) :
  envName (keyOf a) = envName (keyOf b) -> a = b.
Proof.
  destruct a, b; intros Heq; try reflexivity; vm_compute in Heq; discriminate Heq.
Qed.

Lemma envValue_insert_ne (e : Env) (name val key : string) :
  name <> envName key -> envValue (<[name := val]> e) key = envValue e key.
Proof. intros Hne. unfold envValue. by rewrite lookup_insert_ne. Qed.

Lemma envValue_insert_eq (e : Env) (val key : string) :
  envValue (<[envName key := val]> e) key = if decide (val = "") then None else Some val.
Proof. unfold envValue. by rewrite lookup_insert_eq. Qed.

Lemma envValue_delete (e : Env) (key : string) :
  envValue (delete (envName key) e) key = None.
Proof. unfold envValue. by rewrite lookup_delete_eq. Qed.


Lemma envValue_insert_delete (e : Env) (name val key : string) :
  name <> envName key -> envValue (<[name := val]> e) key = envValue (delete name e) key.
Proof. intros Hne. unfold envValue. by rewrite lookup_insert_ne, lookup_delete_ne. Qed.

(** The variable of an accessor is not the variable of a path above the
    key of an accessor. *)
Lemma envName_not_above (a b : Accessor) :
  Forall (fun p => envName (keyOf a) <> envName p) (Viper.parents (keyOf b)).
Proof. destruct a, b; apply (bool_decide_unpack _); vm_compute; exact I. Qed.

Lemma parentVariableSet_insert_ne (e : Env) (name val key : string) :
  Forall (fun p => name <> envName p) (Viper.parents key) ->
  parentVariableSet (<[name := val]> e) key = parentVariableSet e key.
Proof.
  intros Hne. unfold parentVariableSet. apply existsb_pointwise.
  eapply Forall_impl; [exact Hne|]. intros p Hp. cbn beta.
  by rewrite envValue_insert_ne.
Qed.

Lemma parentVariableSet_insert_delete (e : Env) (name val key : string) :
  Forall (fun p => name <> envName p) (Viper.parents key) ->
  parentVariableSet (<[name := val]> e) key = parentVariableSet (delete name e) key.
Proof.
  intros Hne. unfold parentVariableSet. apply existsb_pointwise.
  eapply Forall_impl; [exact Hne|]. intros p Hp. cbn beta.
  by rewrite envValue_insert_delete.
Qed.

(** The lookup in the file depends on the content of the file only. *)
Lemma resolve_same_file (e : Env) (w1 w2 : World) (path key : string) :
  (path <> "" -> fs w1 !! path = fs w2 !! path) ->
  resolve e w1 path key = resolve e w2 path key.
Proof.
  intros Hfs.
  assert (Hfile : forall k, fileValue w1 path k = fileValue w2 path k).
  { intros k. unfold fileValue. destruct (decide (path = "")); [reflexivity|].
    by rewrite Hfs. }
  unfold resolve, fileValueAbove.
  by rewrite Hfile, (shadowedIn_pointwise _ _ _ Hfile).
Qed.

Lemma initialRegistry_defaults_dom :
  dom (Viper.defaults initialRegistry) = list_to_set optionsWithDefault.
Proof. apply (bool_decide_unpack _). vm_compute. exact I. Qed.

(** The keys of the file layer of a constructed configuration that hold
    no map. *)
Lemma leafKeys_content w path cfg :
  (path <> "" -> fs w !! path = Some (Yaml cfg)) ->
  Viper.leafKeys (if decide (path = "") then ∅ else cfg) = fileKeys w path.
Proof.
  intros Hfs. unfold fileKeys. destruct (decide (path = "")) as [|Hpath].
  - unfold Viper.leafKeys. by rewrite map_filter_empty, dom_empty_L.
  - by rewrite (Hfs Hpath).
Qed.

(** What [SetDefault] leaves at a key: the value at the key it sets,
    nothing above and below that key, and elsewhere what was there. *)
Lemma SetDefault_lookup (r : Viper.Viper) (key key' : string) (x : value) :
  Viper.defaults (Viper.SetDefault r key x) !! key'
  = if decide (key' = Strings.ToLower key) then Some x
    else if decide (key' ∈ Viper.parents (Strings.ToLower key)
                    \/ Strings.ToLower key ∈ Viper.parents key')
         then None
         else Viper.defaults r !! key'.
Proof.
  unfold Viper.SetDefault. cbn [Viper.defaults].
  destruct (decide (key' = Strings.ToLower key)) as [->|Hne].
  { by rewrite lookup_insert_eq. }
  rewrite lookup_insert_ne by done.
  destruct (decide _) as [Hrel|Hrel].
  - apply map_lookup_filter_None. right. intros y _ [Ha Hb]. cbn in Ha, Hb. tauto.
  - destruct (Viper.defaults r !! key') as [y|] eqn:Hy.
    + apply map_lookup_filter_Some. split; [done|]. cbn. tauto.
    + apply map_lookup_filter_None. by left.
Qed.

Lemma setConfigDefaults_defaults (c : ViperConfig) :
  Forall (fun key => Viper.defaults (v (setConfigDefaults c)) !! key
                     = Viper.defaults initialRegistry !! key)
    optionsWithDefault.
Proof.
  unfold setConfigDefaults. cbn [v].
  let l := eval vm_compute in optionsWithDefault in change optionsWithDefault with l.
  repeat (constructor; [rewrite !SetDefault_lookup; vm_compute; reflexivity|]).
  constructor.
Qed.

(** [setConfigDefaults] registers the defaults whatever the registry held
    before: each of the 19 options with a default gets the default a fresh
    registry gets (0.0.0.0:8080 for http.address, 5 for
    verification.daily_limit), also when the registry held another default
    at the key, above it or below it, and none of the 19 calls undoes
    another; the file layer, the environment settings and the other fields
    of the configuration are left alone, and the types follow the
    defaults. *)
Theorem setConfigDefaults_registers_the_defaults (c : ViperConfig) :
  Forall (fun key => Viper.defaults (v (setConfigDefaults c)) !! key
                     = Viper.defaults initialRegistry !! key)
    optionsWithDefault
  /\ Viper.defaults (v (setConfigDefaults c)) !! varHTTPAddress
     = Some (VString "0.0.0.0:8080")
  /\ Viper.defaults (v (setConfigDefaults c)) !! varVerificationDailyLimit
     = Some (VInt 5)
  /\ Viper.config (v (setConfigDefaults c)) = Viper.config (v c)
  /\ Viper.envPrefix (v (setConfigDefaults c)) = Viper.envPrefix (v c)
  /\ Viper.automaticEnvApplied (v (setConfigDefaults c)) = Viper.automaticEnvApplied (v c)
  /\ Viper.typeByDefValue (v (setConfigDefaults c)) = true
  /\ secretValues (setConfigDefaults c) = secretValues c
  /\ excludedDomains (setConfigDefaults c) = excludedDomains c.
Proof.
  pose proof (setConfigDefaults_defaults c) as Hall.
  split; [exact Hall|].
  rewrite Forall_forall in Hall.
  split; [|split; [|repeat split]].
  - rewrite (Hall varHTTPAddress); [reflexivity|].
    apply (bool_decide_unpack _). vm_compute. exact I.
  - rewrite (Hall varVerificationDailyLimit); [reflexivity|].
    apply (bool_decide_unpack _). vm_compute. exact I.
Qed.

Section Further.
Context `{Strconv} {Client : Type} `{Loaders Client}.

(** With an empty path, [New] is [LoadConfig]: the same result and the same
    effects, whatever the loaders answer. *)
Theorem New_without_path_is_LoadConfig (cl : Client) (w : World) :
  New "" cl w = LoadConfig cl w.
Proof.
  rewrite New_eq, LoadConfig_eq.
  destruct ((secretOutcome cl w).1.2) as [err|]; [reflexivity|].
  destruct ((configMapOutcome cl w).1) as [err|]; reflexivity.
Qed.

(** The recognized options are bound to pairwise distinct environment
    variables, and setting the variable of one typed accessor leaves the
    result of every other one as it was. *)
Theorem environment_variables_are_independent
    (path : string) (cl : Client) (w w' : World) (c : ViperConfig) :
  New path cl w = (Some c, None, w') ->
  NoDup (envName <$> recognizedOptions)
  /\ forall (a b : Accessor) (val : string) (e : Env),
       a <> b ->
       call b c (<[envName (keyOf a) := val]> e) = call b c e.
Proof.
  intros Hnew. split; [apply (bool_decide_unpack _); vm_compute; exact I|].
  intros a b val e Hab.
  rewrite !(call_resolve _ _ _ _ _ b _ Hnew). unfold resolve.
  rewrite envValue_insert_ne, parentVariableSet_insert_ne;
    [reflexivity|apply envName_not_above|].
  intros Heq. apply Hab. by apply envName_keyOf_inj.
Qed.


(** A variable set to the empty string does not override: the accessor
    returns what it returns when the variable is unset. *)
Theorem empty_variable_does_not_override
    (path : string) (cl : Client) (w w' : World) (c : ViperConfig) :
  New path cl w = (Some c, None, w') ->
  forall (a : Accessor) (e : Env),
    call a c (<[envName (keyOf a) := ""]> e) = call a c (delete (envName (keyOf a)) e).
Proof.
  intros Hnew a e.
  rewrite !(call_resolve _ _ _ _ _ a _ Hnew). unfold resolve.
  rewrite envValue_insert_eq, envValue_delete.
  rewrite parentVariableSet_insert_delete by apply envName_not_above.
  reflexivity.
Qed.

(** Where testing mode comes from: the variable REGISTRATION_ENVIRONMENT
    when it is set, else the file's value of environment, else the default
    prod, which is not the testing environment. *)
Theorem testing_mode_by_source
    (path : string) (cl : Client) (w w' : World) (c : ViperConfig) (e : Env) :
  New path cl w = (Some c, None, w') ->
  (forall val, envValue e varEnvironment = Some val ->
     IsTestingMode c e = bool_decide (val = "unit-tests"))
  /\ (forall x, envValue e varEnvironment = None ->
        fileValue w path varEnvironment = Some x ->
        IsTestingMode c e = bool_decide (Cast.ToString (Some x) = "unit-tests"))
  /\ (envValue e varEnvironment = None ->
      fileValue w path varEnvironment = None ->
      IsTestingMode c e = false).
Proof.
  intros Hnew.
  pose proof (call_resolve _ _ _ _ _ AGetEnvironment e Hnew) as Hcall.
  cbn [call kindOfAccessor keyOf convert] in Hcall. injection Hcall as Hget.
  unfold IsTestingMode. rewrite Hget. unfold resolve.
  change (parentVariableSet e varEnvironment) with false.
  change (fileValueAbove w path varEnvironment) with false.
  split; [|split].
  - intros val ->. reflexivity.
  - intros x -> ->. reflexivity.
  - intros -> ->. reflexivity.
Qed.

(** A boolean accessor whose variable is set returns true exactly for the
    six spellings [strconv.ParseBool] accepts as true (1, t, T, TRUE, true,
    True); any other value, such as yes, gives false and no error. *)
Theorem boolean_accessors_parse_the_variable
    (path : string) (cl : Client) (w w' : World) (c : ViperConfig) :
  New path cl w = (Some c, None, w') ->
  forall (a : Accessor) (e : Env) (val : string),
    kindOfAccessor a = KBool ->
    envValue e (keyOf a) = Some val ->
    call a c e = RBool (bool_decide (val ∈ truthy)).
Proof.
  intros Hnew a e val Hkind Henv.
  rewrite (call_resolve _ _ _ _ _ a e Hnew). unfold resolve. rewrite Henv, Hkind.
  cbn [convert Cast.ToBool]. unfold Cast.ParseBool. fold truthy.
  destruct (bool_decide (val ∈ truthy)); [reflexivity|].
  destruct (bool_decide _); reflexivity.
Qed.

(** The typed accessors are blind to the secret mapping and to whatever
    else the loaders did: two configurations built from the same path and
    the same file return the same values in the same environment,
    whatever their clients, secrets and environments at construction. *)
Theorem typed_accessors_ignore_secret_and_loaders
    (path : string) (cl1 cl2 : Client) (w1 w2 w1' w2' : World) (c1 c2 : ViperConfig) :
  New path cl1 w1 = (Some c1, None, w1') ->
  New path cl2 w2 = (Some c2, None, w2') ->
  (path <> "" -> fs w1 !! path = fs w2 !! path) ->
  forall (a : Accessor) (e : Env), call a c1 e = call a c2 e.
Proof.
  intros Hnew1 Hnew2 Hfs a e.
  rewrite (call_resolve _ _ _ _ _ a e Hnew1), (call_resolve _ _ _ _ _ a e Hnew2).
  by rewrite (resolve_same_file e w1 w2).
Qed.

(** The registry [GetViperInstance] hands out after construction: prefix
    REGISTRATION, automatic environment with dots replaced by underscores,
    types following the defaults; the configuration file and its type
    (yaml) are set only when a path was given, and the file layer is then
    the file's content, and empty otherwise. *)
Theorem GetViperInstance_settings
    (path : string) (cl : Client) (w w' : World) (c : ViperConfig) :
  New path cl w = (Some c, None, w') ->
  let r := GetViperInstance c in
  Viper.envPrefix r = "REGISTRATION"
  /\ Viper.automaticEnvApplied r = true
  /\ Viper.envKeyReplacer r = Some (Strings.NewReplacer "."%char "_"%char)
  /\ Viper.typeByDefValue r = true
  /\ Viper.configFile r = path
  /\ Viper.configType r = (if decide (path = "") then "" else "yaml")
  /\ (path = "" -> Viper.config r = ∅)
  /\ (forall cfg, path <> "" -> fs w !! path = Some (Yaml cfg) -> Viper.config r = cfg).
Proof.
  intros (cfg & Hfs & Hv & _)%New_ok r. unfold r, GetViperInstance. rewrite Hv.
  destruct (registryFor_settings path cfg) as (Ha & Hp & Hr & Ht & _ & Hc).
  rewrite Ha, Hp, Hr, Ht, Hc. unfold registryFor.
  destruct (decide (path = "")) as [->|Hpath].
  - repeat split; try reflexivity. intros cfg' Hne. by destruct Hne.
  - repeat split; try reflexivity; [done|].
    intros cfg' _ Hcfg. rewrite (Hfs Hpath) in Hcfg. by injection Hcfg.
Qed.

(** Every excluded domain of a constructed configuration is a non-empty
    string with no comma: empty entries (a leading, trailing or doubled
    comma) are dropped. *)
Theorem excluded_domains_are_fields
    (path : string) (cl : Client) (w w' : World) (c : ViperConfig) :
  New path cl w = (Some c, None, w') ->
  Forall isField (GetVerificationExcludedEmailDomains c).
Proof.
  intros (_ & _ & _ & _ & Hx & _)%New_ok.
  unfold GetVerificationExcludedEmailDomains. rewrite Hx.
  by apply fieldsFrom_fields.
Qed.

(** Round trip: when the option holds non-empty, comma-free domains joined
    by commas, the list is exactly those domains, in order. *)
Theorem excluded_domains_round_trip
    (path : string) (cl : Client) (w w' : World) (c : ViperConfig) (l : list string) :
  New path cl w = (Some c, None, w') ->
  Forall isField l ->
  Viper.GetString (v c) (env w') varVerificationExcludedEmailDomains
    = String.concat "," l ->
  GetVerificationExcludedEmailDomains c = l.
Proof.
  intros (_ & _ & _ & _ & Hx & _)%New_ok Hl Hs.
  unfold GetVerificationExcludedEmailDomains. rewrite Hx, Hs.
  by apply FieldsFunc_concat.
Qed.

(** What [PrintConfig] logs for a constructed configuration: one entry
    whose keys, each listed once, are the keys of the file that hold no
    map and those of the 19 options with a default that have no such key
    of the file above them (a file with a value at http hides the five
    http options). An option with no default that is set only through its
    environment variable is not logged; with no file the entry has exactly
    19 keys. *)
Theorem PrintConfig_logs_file_and_defaulted_keys
    (path : string) (cl : Client) (w w' : World) (c : ViperConfig) (w2 : World) :
  New path cl w = (Some c, None, w') ->
  exists kvs,
    PrintConfig c w2 =
      (tt, {| env := env w2; fs := fs w2;
              trace := trace w2 ++
                [EvLog "configuration" "Registration service configuration variables:" kvs] |})
    /\ NoDup kvs.*1
    /\ (forall key, key ∈ kvs.*1 <->
          key ∈ fileKeys w path
          \/ (key ∈ optionsWithDefault
              /\ Forall (fun p => p ∉ fileKeys w path) (Viper.parents key)))
    /\ (path = "" -> List.length kvs = 19%nat).
Proof.
  intros (cfg & Hfs & Hv & _)%New_ok.
  destruct (registryFor_settings path cfg) as (_ & _ & _ & _ & Hd & Hc).
  exists ((fun key => (key, Viper.Get (v c) (env w2) key)) <$> Viper.AllKeys (v c)).
  split; [reflexivity|].
  assert (Hkeys : ((fun key => (key, Viper.Get (v c) (env w2) key)) <$> Viper.AllKeys (v c)).*1
                  = Viper.AllKeys (v c)).
  { rewrite <- list_fmap_compose. apply list_fmap_id. }
  rewrite Hkeys. split; [unfold Viper.AllKeys; apply NoDup_elements|]. split.
  - intros key. unfold Viper.AllKeys.
    rewrite Hv, Hd, Hc, initialRegistry_defaults_dom, (leafKeys_content w path cfg Hfs).
    rewrite elem_of_elements, elem_of_union. split.
    + intros [Hk|Hk]; [by left|]. apply elem_of_filter in Hk as [Habove Hk].
      right. split; [by apply elem_of_list_to_set in Hk|exact Habove].
    + intros [Hk|[Hk Habove]]; [by left|]. right. apply elem_of_filter.
      split; [exact Habove|by apply elem_of_list_to_set].
  - intros ->. rewrite length_fmap, Hv.
    change (registryFor "" cfg) with initialRegistry.
    vm_compute. reflexivity.
Qed.

(** What [New] leaves alone, whatever it returns: the file system is
    unchanged and the trace only grows; and when the loaders do not touch
    the environment, every variable but HOST_OPERATOR_SECRET_NAME and
    HOST_OPERATOR_CONFIG_MAP_NAME keeps its value. *)
Theorem New_frame (path : string) (cl : Client) (w : World) :
  fs (New path cl w).2 = fs w
  /\ (exists more, trace (New path cl w).2 = (trace w ++ more)%list)
  /\ ((secretOutcome cl w).2 = envForSecret w ->
      (configMapOutcome cl w).2 = envForConfigMap cl w ->
      forall name,
        name <> "HOST_OPERATOR_SECRET_NAME" ->
        name <> "HOST_OPERATOR_CONFIG_MAP_NAME" ->
        env (New path cl w).2 !! name = env w !! name).
Proof.
  rewrite New_eq. split; [|split].
  - destruct ((secretOutcome cl w).1.2) as [err|]; [reflexivity|].
    destruct ((configMapOutcome cl w).1) as [err|]; [reflexivity|].
    destruct (decide (path = "")); reflexivity.
  - destruct ((secretOutcome cl w).1.2) as [err|]; [eauto|].
    destruct ((configMapOutcome cl w).1) as [err|]; [eauto|].
    destruct (decide (path = "")); eauto.
  - intros Hs Hm name Hn1 Hn2.
    assert (Hsecret : (secretOutcome cl w).2 !! name = env w !! name).
    { rewrite Hs. unfold envForSecret. by rewrite lookup_insert_ne. }
    assert (Hloaded : loadedEnv cl w !! name = env w !! name).
    { unfold loadedEnv. rewrite Hm. unfold envForConfigMap.
      by rewrite lookup_insert_ne. }
    destruct ((secretOutcome cl w).1.2) as [err|]; [exact Hsecret|].
    destruct ((configMapOutcome cl w).1) as [err|]; [exact Hloaded|].
    destruct (decide (path = "")); exact Hloaded.
Qed.
End Further.

(** ** The further properties on the sample cluster *)

Section FurtherExamples.
#[local] Existing Instance Sample.conversions.
#[local] Existing Instance Sample.loaders.

Lemma environment_variables_are_independent_witness :
  call AGetEnvironment Sample.plain
    (<["REGISTRATION_HTTP_ADDRESS" := "127.0.0.1:9090"]> (env Sample.afterPlain))
  = call AGetEnvironment Sample.plain (env Sample.afterPlain).
Proof.
  apply (proj2 (environment_variables_are_independent _ _ _ _ _ sample_plain)
           AGetHTTPAddress AGetEnvironment).
  discriminate.
Defined.


Lemma empty_variable_witness :
  call AGetNamespace Sample.plain (<["REGISTRATION_NAMESPACE" := ""]> ∅)
  = RString "toolchain-host-operator".
Proof.
  rewrite (empty_variable_does_not_override _ _ _ _ _ sample_plain AGetNamespace ∅).
  reflexivity.
Defined.

Lemma testing_mode_by_source_witness :
  IsTestingMode Sample.fromFile {[ "REGISTRATION_ENVIRONMENT" := "unit-tests" ]} = true
  /\ IsTestingMode Sample.fromFile ∅ = false.
Proof.
  split.
  - apply (proj1 (testing_mode_by_source _ _ _ _ _
                    {[ "REGISTRATION_ENVIRONMENT" := "unit-tests" ]} sample_fromFile)
             "unit-tests").
    reflexivity.
  - apply (proj2 (proj2 (testing_mode_by_source _ _ _ _ _ ∅ sample_fromFile)));
      reflexivity.
Defined.

Lemma boolean_accessors_witness :
  call AGetVerificationEnabled Sample.plain {[ "REGISTRATION_VERIFICATION_ENABLED" := "yes" ]}
  = RBool false
  /\ call AGetVerificationEnabled Sample.plain {[ "REGISTRATION_VERIFICATION_ENABLED" := "TRUE" ]}
     = RBool true.
Proof.
  split.
  - apply (boolean_accessors_parse_the_variable _ _ _ _ _ sample_plain
             AGetVerificationEnabled _ "yes"); reflexivity.
  - apply (boolean_accessors_parse_the_variable _ _ _ _ _ sample_plain
             AGetVerificationEnabled _ "TRUE"); reflexivity.
Defined.

(** A second cluster, with another secret. *)
Lemma sample_other_secret :
  exists c w',
    New "" {| Sample.secretData := {[ "twilio.account.sid" := "AC9999" ]};
              Sample.secretError := None; Sample.configMapData := [];
              Sample.configMapError := None |}
      {| env := {[ "HOME" := "/root" ]}; fs := ∅; trace := [] |}
    = (Some c, None, w').
Proof. eexists; eexists. rewrite New_eq. reflexivity. Qed.

Lemma typed_accessors_ignore_secret_witness :
  exists c,
    call AGetHTTPAddress Sample.plain ∅ = call AGetHTTPAddress c ∅
    /\ GetTwilioAccountSID c = "AC9999"
    /\ GetTwilioAccountSID Sample.plain = "AC0123".
Proof.
  destruct sample_other_secret as (c & w' & Hnew).
  exists c. split; [|split].
  - apply (typed_accessors_ignore_secret_and_loaders _ _ _ _ _ _ _ _ _
             sample_plain Hnew). intros Hne. by destruct Hne.
  - rewrite New_eq in Hnew. injection Hnew as <- _. reflexivity.
  - reflexivity.
Defined.

Lemma GetViperInstance_settings_witness :
  Viper.configFile (GetViperInstance Sample.fromFile) = "/etc/registration.yaml"
  /\ Viper.configType (GetViperInstance Sample.fromFile) = "yaml"
  /\ Viper.config (GetViperInstance Sample.fromFile) = Sample.content
  /\ Viper.configFile (GetViperInstance Sample.plain) = ""
  /\ Viper.config (GetViperInstance Sample.plain) = ∅.
Proof.
  destruct (GetViperInstance_settings _ _ _ _ _ sample_fromFile)
    as (_ & _ & _ & _ & Hfile & Htype & _ & Hcontent).
  destruct (GetViperInstance_settings _ _ _ _ _ sample_plain)
    as (_ & _ & _ & _ & Hfile' & _ & Hempty & _).
  split; [exact Hfile|]. split; [exact Htype|].
  split; [apply Hcontent; [discriminate|reflexivity]|].
  split; [exact Hfile'|]. apply Hempty. reflexivity.
Defined.

Lemma excluded_domains_are_fields_witness :
  Forall isField (GetVerificationExcludedEmailDomains Sample.fromFile).
Proof. exact (excluded_domains_are_fields _ _ _ _ _ sample_fromFile). Defined.

Lemma excluded_domains_round_trip_witness :
  GetVerificationExcludedEmailDomains Sample.fromFile = ["redhat.com"; "ibm.com"].
Proof.
  apply (excluded_domains_round_trip _ _ _ _ _ _ sample_fromFile).
  - repeat constructor; discriminate.
  - reflexivity.
Defined.

(** The keys logged in two sample worlds: with no file, woopra.domain is
    not among them; with a file that holds a value at http, http is and
    http.address is not. *)
Lemma sample_plain_woopra_not_logged :
  ~ (varWoopraDomain ∈ fileKeys Sample.bare ""
     \/ (varWoopraDomain ∈ optionsWithDefault
         /\ Forall (fun p => p ∉ fileKeys Sample.bare "") (Viper.parents varWoopraDomain))).
Proof. apply (bool_decide_unpack _). vm_compute. exact I. Qed.

Lemma sample_scalar_http_logged : "http" ∈ fileKeys Sample.scalarAbove Sample.path.
Proof. apply (bool_decide_unpack _). vm_compute. exact I. Qed.

Lemma sample_scalar_address_not_logged :
  ~ (varHTTPAddress ∈ fileKeys Sample.scalarAbove Sample.path
     \/ (varHTTPAddress ∈ optionsWithDefault
         /\ Forall (fun p => p ∉ fileKeys Sample.scalarAbove Sample.path)
              (Viper.parents varHTTPAddress))).
Proof. apply (bool_decide_unpack _). vm_compute. exact I. Qed.

Lemma PrintConfig_logs_witness :
  (exists kvs,
     (PrintConfig Sample.plain Sample.afterPlain).2
     = {| env := env Sample.afterPlain; fs := fs Sample.afterPlain;
          trace := trace Sample.afterPlain ++
            [EvLog "configuration" "Registration service configuration variables:" kvs] |}
     /\ List.length kvs = 19%nat
     /\ varWoopraDomain ∉ kvs.*1)
  /\ (exists kvs,
       (PrintConfig Sample.fromScalar Sample.afterScalar).2
       = {| env := env Sample.afterScalar; fs := fs Sample.afterScalar;
            trace := trace Sample.afterScalar ++
              [EvLog "configuration" "Registration service configuration variables:" kvs] |}
       /\ "http" ∈ kvs.*1
       /\ varHTTPAddress ∉ kvs.*1).
Proof.
  split.
  - destruct (PrintConfig_logs_file_and_defaulted_keys _ _ _ _ _ Sample.afterPlain sample_plain)
      as (kvs & Hprint & _ & Hkeys & Hlen).
    exists kvs. split; [rewrite Hprint; exact eq_refl|].
    split; [apply Hlen; exact eq_refl|].
    intros Hin%Hkeys. exact (sample_plain_woopra_not_logged Hin).
  - destruct (PrintConfig_logs_file_and_defaulted_keys _ _ _ _ _ Sample.afterScalar
                sample_fromScalar)
      as (kvs & Hprint & _ & Hkeys & _).
    exists kvs. split; [rewrite Hprint; exact eq_refl|]. split.
    + apply Hkeys. left. exact sample_scalar_http_logged.
    + intros Hin%Hkeys. exact (sample_scalar_address_not_logged Hin).
Defined.

Lemma New_frame_witness :
  fs (New Sample.path Sample.cluster Sample.both).2 = fs Sample.both
  /\ env (New Sample.path Sample.cluster Sample.both).2 !! "REGISTRATION_HTTP_ADDRESS"
     = Some "127.0.0.1:9090".
Proof.
  destruct (New_frame Sample.path Sample.cluster Sample.both) as (Hfs & _ & Henv).
  split; [exact Hfs|].
  rewrite Henv; [reflexivity|reflexivity|reflexivity|discriminate|discriminate].
Defined.
End FurtherExamples.
